(** * editorconfig-vscode: the option mapping of [src/api.ts]

    A shallow embedding of the TypeScript module [src/api.ts]: the two
    conversions between EditorConfig properties and editor options
    ([fromEditorConfig], [toEditorConfig]), the readers around them
    ([pickWorkspaceDefaults], [resolveFile], [resolveCoreConfig]) and the two
    entry points ([resolveTextEditorOptions], [applyTextEditorOptions]).

    JavaScript objects are finite maps from property names to values, so that
    an absent key and a key holding [undefined] stay distinct; a property read
    of an absent key yields [undefined]. *)

From Stdlib Require Import ZArith Ascii String Lia.
From stdpp Require Import base option strings pretty gmap fin_maps.

Local Open Scope string_scope.

(** ** Values *)

(** Numbers. Tab and indent widths are integers; the only non-integer the
    module can produce is the [NaN] of a failed [parseInt]. Integers are kept
    exact (no rounding to 53 bits). *)
Inductive number : Type :=
  | Finite (z : Z)
  | NaN.

(** The primitive values the typings of the module admit for a property:
    [undefined], booleans, numbers and strings. *)
Inductive value : Type :=
  | VUndefined
  | VBool (b : bool)
  | VNum (n : number)
  | VStr (s : string).

#[global] Instance number_eq_dec : EqDecision number.
Proof. solve_decision. Defined.

#[global] Instance value_eq_dec : EqDecision value.
Proof. solve_decision. Defined.

#[global] Instance value_inhabited : Inhabited value := populate VUndefined.

(** An object: its own properties. *)
Abbreviation obj := (gmap string value).

(** [o.k] *)
Definition get (o : obj) (k : string) : value := default VUndefined (o !! k).

(** [a === b]: same type and same value; [NaN] equals nothing. *)
Definition strict_eq (a b : value) : bool :=
  match a, b with
  | VUndefined, VUndefined => true
  | VBool x, VBool y => Bool.eqb x y
  | VNum (Finite x), VNum (Finite y) => (x =? y)%Z
  | VStr x, VStr y => String.eqb x y
  | _, _ => false
  end.

Infix "===" := strict_eq (at level 70, no associativity).

(** [a ?? b]; [null] is not among the values of the typings. *)
Definition nullish (a b : value) : value :=
  match a with
  | VUndefined => b
  | _ => a
  end.

Infix "??" := nullish (at level 65, right associativity).

(** ToBoolean, as applied by [if (v)], [!v] and [c ? a : b]. *)
Definition truthy (v : value) : bool :=
  match v with
  | VUndefined => false
  | VBool b => b
  | VNum (Finite z) => negb (z =? 0)%Z
  | VNum NaN => false
  | VStr s => negb (String.eqb s "")
  end.

(** [typeof v] *)
Definition typeof (v : value) : string :=
  match v with
  | VUndefined => "undefined"
  | VBool _ => "boolean"
  | VNum _ => "number"
  | VStr _ => "string"
  end.

(** [String(v)]; an integer prints as its decimal numeral (as JavaScript does
    below 10^21). *)
Definition ToString (v : value) : string :=
  match v with
  | VUndefined => "undefined"
  | VBool true => "true"
  | VBool false => "false"
  | VNum (Finite z) => pretty z
  | VNum NaN => "NaN"
  | VStr s => s
  end.

(** ** [parseInt(s, 10)] *)

(** White space and line terminators that [parseInt] skips (the ASCII ones:
    TAB, LF, VT, FF, CR, SP). *)
Definition is_white_space (c : ascii) : bool :=
  let n := N_of_ascii c in
  ((9 <=? n)%N && (n <=? 13)%N) || (n =? 32)%N.

Fixpoint trim_start (s : string) : string :=
  match s with
  | String c s' => if is_white_space c then trim_start s' else s
  | EmptyString => s
  end.

Definition digit_of (c : ascii) : option Z :=
  let n := Z.of_N (N_of_ascii c) in
  if ((48 <=? n)%Z && (n <=? 57)%Z) then Some (n - 48)%Z else None.

(** The longest prefix of decimal digits, read left to right; [acc] is [None]
    as long as no digit was seen. *)
Fixpoint parse_digits (s : string) (acc : option Z) : option Z :=
  match s with
  | String c s' =>
      match digit_of c with
      | Some d => parse_digits s' (Some (10 * default 0%Z acc + d)%Z)
      | None => acc
      end
  | EmptyString => acc
  end.

Definition parseInt (s : string) : number :=
  let s := trim_start s in
  let '(sign, s) :=
    match s with
    | String c r =>
        if Ascii.eqb c "-" then ((-1)%Z, r)
        else if Ascii.eqb c "+" then (1%Z, r)
        else (1%Z, s)
    | EmptyString => (1%Z, s)
    end in
  match parse_digits s None with
  | None => NaN
  | Some m => Finite (sign * m)
  end.

(** ** The conversions *)

(** [fromEditorConfig(config, defaults)]: both arguments given (the default
    parameters only replace an argument that is [undefined]). *)
Definition fromEditorConfig (config defaults : obj) : obj :=
  let resolved : obj :=
    {[ "tabSize" :=
         (if get config "indent_style" === VStr "tab"
          then get config "tab_width" ?? get config "indent_size"
          else get config "tab_width") ?? get defaults "tabSize";
       "indentSize" :=
         (if get config "indent_style" === VStr "tab"
          then get config "indent_size" ?? VStr "tabSize"
          else get config "indent_size") ?? get defaults "indentSize" ]} in
  let resolved :=
    if get resolved "tabSize" === VStr "tab"
    then <["tabSize" := get config "tab_width"]> resolved
    else resolved in
  let resolved :=
    if get resolved "indentSize" === VStr "tab"
    then <["indentSize" := VStr "tabSize"]> resolved
    else resolved in
  let resolved :=
    if (get config "indent_style" === VStr "tab")
       || (get config "indent_size" === VStr "tab")
       || (get config "indent_style" === VStr "space")
    then <["insertSpaces" := VBool (get config "indent_style" === VStr "space")]> resolved
    else resolved in
  let resolved :=
    if (get resolved "tabSize" === VUndefined)
       || (get resolved "tabSize" === VStr "unset")
    then delete "tabSize" resolved
    else resolved in
  let resolved :=
    if (get resolved "indentSize" === VUndefined)
       || (get resolved "indentSize" === VStr "unset")
    then delete "indentSize" resolved
    else resolved in
  resolved.

(** The inner helper of [toEditorConfig]. *)
Definition resolveTabSize (tabSize : value) : value :=
  if tabSize === VStr "auto" then VNum (Finite 4)
  else VNum (parseInt (ToString tabSize)).

(** [toEditorConfig(options)]: the [switch] compares with [===]. *)
Definition toEditorConfig (options : obj) : obj :=
  let result : obj := ∅ in
  let insertSpaces := get options "insertSpaces" in
  if insertSpaces === VBool true then
    let result := <["indent_style" := VStr "space"]> result in
    if truthy (get options "tabSize")
    then <["indent_size" := resolveTabSize (get options "tabSize")]> result
    else result
  else if (insertSpaces === VBool false) || (insertSpaces === VStr "auto") then
    let result := <["indent_style" := VStr "tab"]> result in
    if truthy (get options "tabSize")
    then <["tab_width" := resolveTabSize (get options "tabSize")]> result
    else result
  else result.

(** ** The host: documents, workspace, EditorConfig core *)

Module Uri.
Record t : Type := Make { fsPath : string }.
End Uri.

Module TextDocument.
Record t : Type := Make {
  languageId : string;
  isUntitled : bool;
  uri : Uri.t;
  fileName : string
}.
End TextDocument.

Module WorkspaceFolder.
Record t : Type := Make { uri : Uri.t }.
End WorkspaceFolder.

(** What the module imports from [vscode] and [editorconfig] and only reads:
    [workspace.workspaceFolders], [workspace.getConfiguration(section, scope)]
    (the returned configuration is read with [get]),
    [workspace.asRelativePath(uri, includeWorkspaceFolder)],
    [Uri.joinPath(base, segment)] and [editorconfig.parse(fileName)], whose
    promise either resolves to an object or rejects ([None]). *)
Record Host : Type := {
  workspaceFolders : option (list WorkspaceFolder.t);
  getConfiguration : string -> option TextDocument.t -> obj;
  asRelativePath : Uri.t -> bool -> string;
  joinPath : Uri.t -> string -> Uri.t;
  parse : string -> option obj
}.

(** ** The mutable world *)

(** References to option objects that are shared between the caller, the
    editor and the callbacks. *)
Definition loc : Type := positive.

Module TextEditor.
Record t : Type := Make {
  document : TextDocument.t;
  options : loc
}.
End TextEditor.

(** Calls that leave the module: the optional callbacks and the EditorConfig
    core. A callback only observes its argument. *)
Inductive event : Type :=
  | OnBeforeResolve (relativePath : string)
  | Parse (fileName : string)
  | OnEmptyConfig (relativePath : string)
  | OnNoActiveTextEditor
  | OnSuccess (newOptions : loc).

#[global] Instance event_eq_dec : EqDecision event.
Proof. solve_decision. Defined.

Record world : Type := World {
  heap : gmap loc obj;
  activeTextEditor : option TextEditor.t;
  trace : list event
}.

(** State and failure: a computation is stuck ([None]) when the parser's
    promise rejects or when a reference designates no object. *)
Definition M (A : Type) : Type := world -> option (A * world).

Definition ret {A : Type} (a : A) : M A := fun w => Some (a, w).

Definition bind {A B : Type} (m : M A) (k : A -> M B) : M B :=
  fun w =>
    match m w with
    | Some (a, w') => k a w'
    | None => None
    end.

Notation "x <- m ;; k" := (bind m (fun x => k))
  (at level 100, m at next level, right associativity).
Notation "m ;;; k" := (bind m (fun _ => k))
  (at level 100, right associativity).

Definition emit (e : event) : M unit :=
  fun w => Some (tt, World (heap w) (activeTextEditor w) (trace w ++ [e])).

Definition load (l : loc) : M obj :=
  fun w =>
    match heap w !! l with
    | Some o => Some (o, w)
    | None => None
    end.

Definition store (l : loc) (o : obj) : M unit :=
  fun w =>
    match heap w !! l with
    | Some _ => Some (tt, World (<[l := o]> (heap w)) (activeTextEditor w) (trace w))
    | None => None
    end.

Definition getActiveTextEditor : M (option TextEditor.t) :=
  fun w => Some (activeTextEditor w, w).

Definition setActiveTextEditor (e : TextEditor.t) : M unit :=
  fun w => Some (tt, World (heap w) (Some e) (trace w)).

(** An optional callback: called when it was passed. *)
Definition call_if (provided : bool) (e : event) : M unit :=
  if provided then emit e else ret tt.

(** The optional callbacks of [resolveTextEditorOptions]. *)
Record ResolveHooks : Type := {
  onBeforeResolve : bool;
  onEmptyConfig : bool
}.

(** The optional callbacks of [applyTextEditorOptions]. *)
Record ApplyHooks : Type := {
  onNoActiveTextEditor : bool;
  onSuccess : bool
}.

(** The value of [resolveFile]: [{ fileName?: string, relativePath?: string }]. *)
Module File.
Record t : Type := Make {
  fileName : option string;
  relativePath : option string
}.
End File.

(** A possibly undefined string in a condition: truthy when it is a non-empty
    string. *)
Definition truthy_string (s : option string) : option string :=
  match s with
  | Some s => if truthy (VStr s) then Some s else None
  | None => None
  end.

(** ToBoolean of an object: [true], whatever its properties (also for [{}]). *)
Definition truthy_object (o : obj) : bool := true.

Section WithHost.

Variable host : Host.

(** [pickWorkspaceDefaults(doc)] *)
Definition pickWorkspaceDefaults (doc : option TextDocument.t) : obj :=
  let workspaceConfig := getConfiguration host "editor" doc in
  let detectIndentation := get workspaceConfig "detectIndentation" in
  if truthy detectIndentation then ∅
  else {[ "tabSize" := get workspaceConfig "tabSize";
          "indentSize" := get workspaceConfig "indentSize";
          "insertSpaces" := get workspaceConfig "insertSpaces" ]}.

(** The inner [getFile] of [resolveFile]. *)
Definition getFile (doc : TextDocument.t) : option Uri.t :=
  if negb (TextDocument.isUntitled doc) then Some (TextDocument.uri doc)
  else
    match workspaceFolders host ≫= head with
    | Some folder =>
        Some (joinPath host (WorkspaceFolder.uri folder) (TextDocument.fileName doc))
    | None => None
    end.

(** [resolveFile(doc)] *)
Definition resolveFile (doc : TextDocument.t) : File.t :=
  if VStr (TextDocument.languageId doc) === VStr "Log" then File.Make None None
  else
    let file := getFile doc in
    File.Make (Uri.fsPath <$> file)
              ((fun f => asRelativePath host f true) <$> file).

(** [await editorconfig.parse(fileName)] *)
Definition editorconfig_parse (fileName : string) : M obj :=
  emit (Parse fileName) ;;;
  fun w =>
    match parse host fileName with
    | Some config => Some (config, w)
    | None => None
    end.

(** [resolveCoreConfig(doc, { onBeforeResolve })] *)
Definition resolveCoreConfig (doc : TextDocument.t) (onBeforeResolve : bool) : M obj :=
  let f := resolveFile doc in
  match truthy_string (File.fileName f) with
  | None => ret ∅
  | Some fileName =>
      match truthy_string (File.relativePath f) with
      | Some relativePath => call_if onBeforeResolve (OnBeforeResolve relativePath)
      | None => ret tt
      end ;;;
      config <- editorconfig_parse fileName ;;
      let config :=
        if get config "indent_size" === VStr "tab"
        then <["indent_size" := get config "tab_width"]> config
        else config in
      ret config
  end.

(** [resolveTextEditorOptions(doc, { onBeforeResolve, onEmptyConfig })] *)
Definition resolveTextEditorOptions (doc : TextDocument.t) (hooks : ResolveHooks) : M obj :=
  editorconfigSettings <- resolveCoreConfig doc (onBeforeResolve hooks) ;;
  if truthy_object editorconfigSettings then
    ret (fromEditorConfig editorconfigSettings (pickWorkspaceDefaults (Some doc)))
  else
    (if onEmptyConfig hooks then
       match truthy_string (File.relativePath (resolveFile doc)) with
       | Some rp => emit (OnEmptyConfig rp)
       | None => ret tt
       end
     else ret tt) ;;;
    ret ∅.

(** [applyTextEditorOptions(newOptions, { onNoActiveTextEditor, onSuccess })];
    [newOptions] is a reference: the assignment to its [indentSize] is seen
    by whoever holds it. *)
Definition applyTextEditorOptions (newOptions : loc) (hooks : ApplyHooks) : M unit :=
  editor <- getActiveTextEditor ;;
  match editor with
  | None => call_if (onNoActiveTextEditor hooks) OnNoActiveTextEditor
  | Some editor =>
      let workspaceConfig :=
        getConfiguration host "editor" (Some (TextEditor.document editor)) in
      (if get workspaceConfig "indentSize" === VStr "tabSize" then
         o <- load newOptions ;;
         if (VStr (typeof (get o "indentSize")) === VStr "undefined")
            && (VStr (typeof (get o "tabSize")) === VStr "number")
         then
           current <- load (TextEditor.options editor) ;;
           store newOptions (<["indentSize" := get current "indentSize"]> o)
         else ret tt
       else ret tt) ;;;
      setActiveTextEditor (TextEditor.Make (TextEditor.document editor) newOptions) ;;;
      call_if (onSuccess hooks) (OnSuccess newOptions)
  end.

End WithHost.

(** ** Sample inputs *)

Definition sample_doc : TextDocument.t :=
  TextDocument.Make "typescript" false (Uri.Make "/ws/src/main.ts") "/ws/src/main.ts".

Definition log_doc : TextDocument.t :=
  TextDocument.Make "Log" false (Uri.Make "output:tasks") "output:tasks".

(** Editor settings with indentation detection switched off. *)
Definition sample_settings : obj :=
  {[ "detectIndentation" := VBool false;
     "tabSize" := VNum (Finite 4);
     "indentSize" := VStr "tabSize";
     "insertSpaces" := VBool true ]}.

(** A host with one workspace folder [/ws], the settings above for every
    scope, and an EditorConfig core that resolves to [parsed]. *)
Definition sample_host (parsed : option obj) : Host :=
  {| workspaceFolders := Some [WorkspaceFolder.Make (Uri.Make "/ws")];
     getConfiguration := fun _ _ => sample_settings;
     asRelativePath := fun u _ =>
       match Uri.fsPath u with
       | String "/" rest => rest
       | p => p
       end;
     joinPath := fun u segment => Uri.Make (Uri.fsPath u +:+ "/" +:+ segment);
     parse := fun _ => parsed |}.

(** Defaults whose [indentSize] is the EditorConfig sentinel. *)
Definition sentinel_defaults : obj :=
  {[ "tabSize" := VNum (Finite 4); "indentSize" := VStr "tab" ]}.

(** The settings above with the opposite [insertSpaces]. *)
Definition sample_settings_tabs : obj :=
  <["insertSpaces" := VBool false]> sample_settings.

(** An unsaved document, and a host without any workspace folder. *)
Definition untitled_doc : TextDocument.t :=
  TextDocument.Make "plaintext" true (Uri.Make "Untitled-1") "Untitled-1".

Definition bare_host : Host :=
  {| workspaceFolders := None;
     getConfiguration := fun _ _ => sample_settings;
     asRelativePath := fun u _ => Uri.fsPath u;
     joinPath := fun u segment => Uri.Make (Uri.fsPath u +:+ "/" +:+ segment);
     parse := fun _ => Some ∅ |}.

Definition all_resolve_hooks : ResolveHooks :=
  {| onBeforeResolve := true; onEmptyConfig := true |}.

Definition all_apply_hooks : ApplyHooks :=
  {| onNoActiveTextEditor := true; onSuccess := true |}.

Definition empty_world : world := World ∅ None [].

(** An editor on [sample_doc] whose options object is at [1]; the new options
    [{ tabSize: 2 }] are at [2]. *)
Definition editing_world : world :=
  World {[ 1%positive := {[ "tabSize" := VNum (Finite 4);
                            "indentSize" := VNum (Finite 8);
                            "insertSpaces" := VBool true ]};
           2%positive := {[ "tabSize" := VNum (Finite 2) ]} ]}
        (Some (TextEditor.Make sample_doc 1%positive))
        [].

(** Editor settings with indentation detection on and a numeric
    [indentSize]. *)
Definition detecting_settings : obj :=
  {[ "detectIndentation" := VBool true;
     "tabSize" := VNum (Finite 4);
     "indentSize" := VNum (Finite 4);
     "insertSpaces" := VBool true ]}.

(** The sample host with these settings. *)
Definition detecting_host : Host :=
  {| workspaceFolders := workspaceFolders (sample_host None);
     getConfiguration := fun _ _ => detecting_settings;
     asRelativePath := asRelativePath (sample_host None);
     joinPath := joinPath (sample_host None);
     parse := fun _ => Some ∅ |}.

(** * Properties *)

(** ** Reading properties *)

Section get_lemmas.

Implicit Types (o : obj) (k : string) (v : value) (b : bool).

Lemma get_lookup_Some o k v : o !! k = Some v -> get o k = v.
Proof. unfold get. by intros ->. Qed.

Lemma get_lookup_None o k : o !! k = None -> get o k = VUndefined.
Proof. unfold get. by intros ->. Qed.

Lemma get_insert_eq o k v : get (<[k := v]> o) k = v.
Proof. apply get_lookup_Some, lookup_insert_eq. Qed.

Lemma get_insert_ne o k k' v : k ≠ k' -> get (<[k := v]> o) k' = get o k'.
Proof. intros. unfold get. by rewrite lookup_insert_ne. Qed.

Lemma get_delete_eq o k : get (delete k o) k = VUndefined.
Proof. apply get_lookup_None, lookup_delete_eq. Qed.

Lemma get_delete_ne o k k' : k ≠ k' -> get (delete k o) k' = get o k'.
Proof. intros. unfold get. by rewrite lookup_delete_ne. Qed.

Lemma get_empty k : get ∅ k = VUndefined.
Proof. apply get_lookup_None, lookup_empty. Qed.

Lemma get_singleton_eq k v : get {[ k := v ]} k = v.
Proof. apply get_lookup_Some, lookup_singleton_eq. Qed.

Lemma get_singleton_ne k k' v : k ≠ k' -> get {[ k := v ]} k' = VUndefined.
Proof. intros. by apply get_lookup_None, lookup_singleton_ne. Qed.

(** A guarded assignment [if (b) o.k = v] and a guarded [delete o.k], read
    at the same key and at another one. *)
Lemma get_cond_insert_eq b o k v :
  get (if b then <[k := v]> o else o) k = if b then v else get o k.
Proof. destruct b; [apply get_insert_eq | done]. Qed.

Lemma get_cond_insert_ne b o k k' v :
  k ≠ k' -> get (if b then <[k := v]> o else o) k' = get o k'.
Proof. destruct b; [apply get_insert_ne | done]. Qed.

Lemma get_cond_delete_eq b o k :
  get (if b then delete k o else o) k = if b then VUndefined else get o k.
Proof. destruct b; [apply get_delete_eq | done]. Qed.

Lemma get_cond_delete_ne b o k k' :
  k ≠ k' -> get (if b then delete k o else o) k' = get o k'.
Proof. destruct b; [apply get_delete_ne | done]. Qed.

Lemma lookup_cond_insert_eq b o k v :
  (if b then <[k := v]> o else o) !! k = if b then Some v else o !! k.
Proof. destruct b; [apply lookup_insert_eq | done]. Qed.

Lemma lookup_cond_insert_ne b o k k' v :
  k ≠ k' -> (if b then <[k := v]> o else o) !! k' = o !! k'.
Proof. destruct b; [by apply lookup_insert_ne | done]. Qed.

Lemma lookup_cond_delete_eq b o k :
  (if b then delete k o else o) !! k = if b then None else o !! k.
Proof. destruct b; [apply lookup_delete_eq | done]. Qed.

Lemma lookup_cond_delete_ne b o k k' :
  k ≠ k' -> (if b then delete k o else o) !! k' = o !! k'.
Proof. destruct b; [by apply lookup_delete_ne | done]. Qed.

End get_lemmas.

(** Two property names differ: by hypothesis, or by comparing the literals. *)
Ltac key_ne :=
  first [ assumption
        | apply not_eq_sym; assumption
        | apply String.eqb_neq; reflexivity ].

(** Pushes a read through the assignments and deletions that precede it. *)
Ltac obj_step :=
  match goal with
  | |- context [get (if _ then <[_ := _]> ?o else ?o) _] =>
      first [ rewrite get_cond_insert_ne by key_ne | rewrite get_cond_insert_eq ]
  | |- context [get (if _ then delete _ ?o else ?o) _] =>
      first [ rewrite get_cond_delete_ne by key_ne | rewrite get_cond_delete_eq ]
  | |- context [(if _ then <[_ := _]> ?o else ?o) !! _] =>
      first [ rewrite lookup_cond_insert_ne by key_ne | rewrite lookup_cond_insert_eq ]
  | |- context [(if _ then delete _ ?o else ?o) !! _] =>
      first [ rewrite lookup_cond_delete_ne by key_ne | rewrite lookup_cond_delete_eq ]
  | |- context [get (<[_ := _]> _) _] =>
      first [ rewrite get_insert_ne by key_ne | rewrite get_insert_eq ]
  | |- context [get (delete _ _) _] =>
      first [ rewrite get_delete_ne by key_ne | rewrite get_delete_eq ]
  | |- context [get {[ _ := _ ]} _] =>
      first [ rewrite get_singleton_ne by key_ne | rewrite get_singleton_eq ]
  | |- context [get ∅ _] => rewrite get_empty
  | |- context [<[_ := _]> _ !! _] =>
      first [ rewrite lookup_insert_ne by key_ne | rewrite lookup_insert_eq ]
  | |- context [delete _ _ !! _] =>
      first [ rewrite lookup_delete_ne by key_ne | rewrite lookup_delete_eq ]
  | |- context [{[ _ := _ ]} !! _] =>
      first [ rewrite lookup_singleton_ne by key_ne | rewrite lookup_singleton_eq ]
  | |- context [∅ !! _] => rewrite lookup_empty
  end.

Ltac obj_simpl := repeat obj_step.

(** ** Strict equality *)

Lemma strict_eq_VStr (v : value) (s : string) :
  (v === VStr s) = bool_decide (v = VStr s).
Proof.
  destruct v as [| b | [z|] | s']; simpl; try done.
  destruct (String.eqb_spec s' s) as [->|Hne].
  - by rewrite bool_decide_eq_true_2.
  - rewrite bool_decide_eq_false_2; [done | congruence].
Qed.

Lemma strict_eq_VUndefined (v : value) :
  (v === VUndefined) = bool_decide (v = VUndefined).
Proof. by destruct v as [| b | [z|] | s']. Qed.

Lemma strict_eq_VBool (v : value) (b : bool) :
  (v === VBool b) = bool_decide (v = VBool b).
Proof.
  destruct v as [| b' | [z|] | s']; simpl; try done.
  by destruct b, b'.
Qed.

(** ** [parseInt] after [String] *)








(** A numeral in a string resolves to its number, other text to [NaN]. *)
Example resolveTabSize_strings :
  resolveTabSize (VStr "8") = VNum (Finite 8)
  ∧ resolveTabSize (VStr " 2 spaces") = VNum (Finite 2)
  ∧ resolveTabSize (VStr "wide") = VNum NaN.
Proof. by vm_compute. Qed.

Lemma dropped_or_defined (v : value) :
  (if (v === VUndefined) || (v === VStr "unset") then None else Some v)
  ≠ Some VUndefined.
Proof. destruct v as [| b | [z|] | s]; simpl; try done. by case_match. Qed.

(** ** [fromEditorConfig], property by property *)

Section fromEditorConfig_lemmas.

Variables config defaults : obj.

Lemma fromEditorConfig_insertSpaces :
  fromEditorConfig config defaults !! "insertSpaces" =
    if (get config "indent_style" === VStr "tab")
       || (get config "indent_size" === VStr "tab")
       || (get config "indent_style" === VStr "space")
    then Some (VBool (get config "indent_style" === VStr "space"))
    else None.
Proof. unfold fromEditorConfig. cbv zeta. by obj_simpl. Qed.

Lemma fromEditorConfig_tabSize :
  fromEditorConfig config defaults !! "tabSize" =
    let tabSize :=
      (if get config "indent_style" === VStr "tab"
       then get config "tab_width" ?? get config "indent_size"
       else get config "tab_width") ?? get defaults "tabSize" in
    let tabSize :=
      if tabSize === VStr "tab" then get config "tab_width" else tabSize in
    if (tabSize === VUndefined) || (tabSize === VStr "unset") then None
    else Some tabSize.
Proof.
  unfold fromEditorConfig. cbv zeta. obj_simpl.
  match goal with
  | |- context [if ?c then Some _ else Some _] => by destruct c
  end.
Qed.

Lemma fromEditorConfig_indentSize :
  fromEditorConfig config defaults !! "indentSize" =
    let indentSize :=
      (if get config "indent_style" === VStr "tab"
       then get config "indent_size" ?? VStr "tabSize"
       else get config "indent_size") ?? get defaults "indentSize" in
    let indentSize :=
      if indentSize === VStr "tab" then VStr "tabSize" else indentSize in
    if (indentSize === VUndefined) || (indentSize === VStr "unset") then None
    else Some indentSize.
Proof.
  unfold fromEditorConfig. cbv zeta. obj_simpl.
  match goal with
  | |- context [if ?c then Some _ else Some _] => by destruct c
  end.
Qed.

Lemma fromEditorConfig_other_keys (k : string) :
  k ≠ "tabSize" -> k ≠ "indentSize" -> k ≠ "insertSpaces" ->
  fromEditorConfig config defaults !! k = None.
Proof. intros. unfold fromEditorConfig. cbv zeta. by obj_simpl. Qed.

(** No property of the result holds [undefined]: such a property is absent. *)
Lemma fromEditorConfig_no_undefined (k : string) :
  fromEditorConfig config defaults !! k ≠ Some VUndefined.
Proof.
  destruct (decide (k = "tabSize")) as [->|?];
    [|destruct (decide (k = "indentSize")) as [->|?];
      [|destruct (decide (k = "insertSpaces")) as [->|?]]].
  - rewrite fromEditorConfig_tabSize. apply dropped_or_defined.
  - rewrite fromEditorConfig_indentSize. apply dropped_or_defined.
  - rewrite fromEditorConfig_insertSpaces. by case_match.
  - by rewrite fromEditorConfig_other_keys.
Qed.

End fromEditorConfig_lemmas.

(** The result only depends on the [tabSize] and [indentSize] of the
    defaults. *)
Lemma fromEditorConfig_defaults_read (config d1 d2 : obj) :
  get d1 "tabSize" = get d2 "tabSize" ->
  get d1 "indentSize" = get d2 "indentSize" ->
  fromEditorConfig config d1 = fromEditorConfig config d2.
Proof. unfold fromEditorConfig. by intros -> ->. Qed.

(** With an [indent_style] of [tab] or [space], [insertSpaces] is always
    set. *)
Lemma fromEditorConfig_insertSpaces_defined (config defaults : obj) :
  get config "indent_style" = VStr "tab" ∨ get config "indent_style" = VStr "space" ->
  get (fromEditorConfig config defaults) "insertSpaces" ≠ VUndefined.
Proof.
  intros H. unfold get at 1. rewrite fromEditorConfig_insertSpaces.
  destruct H as [-> | ->]; simpl; [done | by rewrite orb_true_r].
Qed.

(** ** [toEditorConfig], case by case *)

Lemma toEditorConfig_true (options : obj) :
  get options "insertSpaces" = VBool true ->
  toEditorConfig options =
    if truthy (get options "tabSize")
    then {[ "indent_style" := VStr "space";
            "indent_size" := resolveTabSize (get options "tabSize") ]}
    else {[ "indent_style" := VStr "space" ]}.
Proof.
  intros H. unfold toEditorConfig. rewrite H. simpl.
  case_match; [|done].
  apply insert_insert_ne. by apply String.eqb_neq.
Qed.

Lemma toEditorConfig_false_or_auto (options : obj) :
  get options "insertSpaces" = VBool false ∨ get options "insertSpaces" = VStr "auto" ->
  toEditorConfig options =
    if truthy (get options "tabSize")
    then {[ "indent_style" := VStr "tab";
            "tab_width" := resolveTabSize (get options "tabSize") ]}
    else {[ "indent_style" := VStr "tab" ]}.
Proof.
  intros H. unfold toEditorConfig. destruct H as [-> | ->]; simpl.
  all: case_match; [|done].
  all: apply insert_insert_ne; by apply String.eqb_neq.
Qed.

Lemma toEditorConfig_otherwise (options : obj) :
  get options "insertSpaces" ≠ VBool true ->
  get options "insertSpaces" ≠ VBool false ->
  get options "insertSpaces" ≠ VStr "auto" ->
  toEditorConfig options = ∅.
Proof.
  intros Ht Hf Ha. unfold toEditorConfig. cbv zeta.
  rewrite !strict_eq_VBool, strict_eq_VStr.
  by rewrite !bool_decide_eq_false_2.
Qed.

(** * The claims *)

(** C3. For every config and defaults: when [config.indent_style] is ["tab"],
    the [insertSpaces] of [fromEditorConfig]'s result is [false] or omitted,
    and never [true]; when it is ["space"], [insertSpaces] is exactly
    [true]. *)
Theorem insertSpaces_follows_indent_style (config defaults : obj) :
  (get config "indent_style" = VStr "tab" ->
     (fromEditorConfig config defaults !! "insertSpaces" = Some (VBool false)
      ∨ fromEditorConfig config defaults !! "insertSpaces" = None)
     ∧ get (fromEditorConfig config defaults) "insertSpaces" ≠ VBool true)
  ∧ (get config "indent_style" = VStr "space" ->
     fromEditorConfig config defaults !! "insertSpaces" = Some (VBool true)).
Proof.
  unfold get at 2. rewrite fromEditorConfig_insertSpaces.
  split; intros ->; simpl; [split; [by left | done] | by rewrite orb_true_r].
Qed.

(** On a config with [indent_style] ["tab"], and on one with ["space"]. *)
Lemma insertSpaces_follows_indent_style_witness :
  ((fromEditorConfig {[ "indent_style" := VStr "tab" ]} sample_settings
      !! "insertSpaces" = Some (VBool false)
    ∨ fromEditorConfig {[ "indent_style" := VStr "tab" ]} sample_settings
      !! "insertSpaces" = None)
   ∧ get (fromEditorConfig {[ "indent_style" := VStr "tab" ]} sample_settings)
       "insertSpaces" ≠ VBool true)
  ∧ fromEditorConfig {[ "indent_style" := VStr "space" ]} sample_settings
      !! "insertSpaces" = Some (VBool true).
Proof.
  split.
  - apply (insertSpaces_follows_indent_style
             {[ "indent_style" := VStr "tab" ]} sample_settings).
    reflexivity.
  - apply (insertSpaces_follows_indent_style
             {[ "indent_style" := VStr "space" ]} sample_settings).
    reflexivity.
Defined.

(** C4. Round trip: for every config whose [indent_style] is ["tab"] or
    ["space"], if [fromEditorConfig(config, {})] has [insertSpaces] defined,
    then [toEditorConfig] of it has the [indent_style] of the config. *)
Theorem indent_style_round_trip (config : obj) :
  get config "indent_style" = VStr "tab" ∨ get config "indent_style" = VStr "space" ->
  get (fromEditorConfig config ∅) "insertSpaces" ≠ VUndefined ->
  get (toEditorConfig (fromEditorConfig config ∅)) "indent_style"
  = get config "indent_style".
Proof.
  intros Hstyle _.
  assert (fromEditorConfig config ∅ !! "insertSpaces"
          = Some (VBool (get config "indent_style" === VStr "space"))) as Hins.
  { rewrite fromEditorConfig_insertSpaces.
    destruct Hstyle as [-> | ->]; simpl; [done | by rewrite orb_true_r]. }
  apply get_lookup_Some in Hins.
  destruct Hstyle as [Hs | Hs]; rewrite Hs in *; simpl in Hins.
  - rewrite toEditorConfig_false_or_auto by (by left).
    case_match; by obj_simpl.
  - rewrite toEditorConfig_true by done.
    case_match; by obj_simpl.
Qed.

(** On [{ indent_style: "tab", indent_size: 2 }]. *)
Lemma indent_style_round_trip_witness :
  get (toEditorConfig (fromEditorConfig
         {[ "indent_style" := VStr "tab"; "indent_size" := VNum (Finite 2) ]} ∅))
      "indent_style"
  = get {[ "indent_style" := VStr "tab"; "indent_size" := VNum (Finite 2) ]}
      "indent_style".
Proof.
  apply (indent_style_round_trip
           {[ "indent_style" := VStr "tab"; "indent_size" := VNum (Finite 2) ]}).
  - left. reflexivity.
  - vm_compute. discriminate.
Defined.

(** C5, as stated, fails: with defaults [{ tabSize: 4, indentSize: "tab" }]
    the result is [{ tabSize: 4, indentSize: "tabSize" }], whose [indentSize]
    is not the one of the defaults. *)
Lemma fromEditorConfig_empty_config_counterexample :
  fromEditorConfig ∅ sentinel_defaults
    = {[ "tabSize" := VNum (Finite 4); "indentSize" := VStr "tabSize" ]}
  ∧ get (fromEditorConfig ∅ sentinel_defaults) "indentSize"
    ≠ get sentinel_defaults "indentSize"
  ∧ fromEditorConfig ∅ sentinel_defaults
    ≠ {[ "tabSize" := get sentinel_defaults "tabSize";
         "indentSize" := get sentinel_defaults "indentSize" ]}.
Proof.
  assert (fromEditorConfig ∅ sentinel_defaults
          = {[ "tabSize" := VNum (Finite 4); "indentSize" := VStr "tabSize" ]}) as E.
  { vm_compute. reflexivity. }
  split; [exact E|]. rewrite E. split.
  - unfold sentinel_defaults. by obj_simpl.
  - intros H. apply (f_equal (fun o : obj => get o "indentSize")) in H.
    revert H. unfold sentinel_defaults. by obj_simpl.
Qed.

(** C5 (amended). For every defaults record, [fromEditorConfig({}, defaults)]
    has no [insertSpaces], no key besides [tabSize] and [indentSize] and no
    key holding [undefined]; its [tabSize] reads as [defaults.tabSize] when
    that is neither ["tab"] nor ["unset"], and its [indentSize] reads as
    [defaults.indentSize] when that is neither ["tab"] nor ["unset"]. *)
Theorem fromEditorConfig_empty_config (defaults : obj) :
  fromEditorConfig ∅ defaults !! "insertSpaces" = None
  ∧ (∀ k, is_Some (fromEditorConfig ∅ defaults !! k) ->
          k = "tabSize" ∨ k = "indentSize")
  ∧ (∀ k, fromEditorConfig ∅ defaults !! k ≠ Some VUndefined)
  ∧ (get defaults "tabSize" ≠ VStr "tab" ->
     get defaults "tabSize" ≠ VStr "unset" ->
     get (fromEditorConfig ∅ defaults) "tabSize" = get defaults "tabSize")
  ∧ (get defaults "indentSize" ≠ VStr "tab" ->
     get defaults "indentSize" ≠ VStr "unset" ->
     get (fromEditorConfig ∅ defaults) "indentSize" = get defaults "indentSize").
Proof.
  assert (fromEditorConfig ∅ defaults !! "insertSpaces" = None) as Hins.
  { rewrite fromEditorConfig_insertSpaces. by rewrite !get_empty. }
  split; [done|]. split; [|split; [|split]].
  - intros k Hk.
    destruct (decide (k = "tabSize")) as [|Ht]; [by left|].
    destruct (decide (k = "indentSize")) as [|Hi]; [by right|].
    destruct (decide (k = "insertSpaces")) as [->|Hs].
    + rewrite Hins in Hk. by destruct Hk.
    + rewrite fromEditorConfig_other_keys in Hk by done. by destruct Hk.
  - apply fromEditorConfig_no_undefined.
  - intros Htab Hunset. unfold get at 1.
    rewrite fromEditorConfig_tabSize, !get_empty. simpl.
    rewrite !strict_eq_VStr, strict_eq_VUndefined.
    rewrite (bool_decide_eq_false_2 _ Htab), (bool_decide_eq_false_2 _ Hunset).
    rewrite orb_false_r. by case_bool_decide.
  - intros Htab Hunset. unfold get at 1.
    rewrite fromEditorConfig_indentSize, !get_empty. simpl.
    rewrite !strict_eq_VStr, strict_eq_VUndefined.
    rewrite (bool_decide_eq_false_2 _ Htab), (bool_decide_eq_false_2 _ Hunset).
    rewrite orb_false_r. by case_bool_decide.
Qed.

(** On the sample settings, which hold no sentinel of EditorConfig. *)
Lemma fromEditorConfig_empty_config_witness :
  get (fromEditorConfig ∅ sample_settings) "tabSize" = get sample_settings "tabSize"
  ∧ get (fromEditorConfig ∅ sample_settings) "indentSize"
    = get sample_settings "indentSize"
  ∧ fromEditorConfig ∅ sample_settings !! "insertSpaces" = None.
Proof.
  destruct (fromEditorConfig_empty_config sample_settings)
    as (Hins & _ & _ & Htab & Hindent).
  split; [|split].
  - apply Htab; vm_compute; discriminate.
  - apply Hindent; vm_compute; discriminate.
  - exact Hins.
Defined.

(** The sentinel ["tab"] of [indent_size], when it survives the first pass,
    is turned into the editor's ["tabSize"]. *)
Lemma indent_size_tab_dereferenced (config defaults : obj) :
  get config "indent_size" = VStr "tab" ->
  fromEditorConfig config defaults !! "indentSize" = Some (VStr "tabSize").
Proof.
  intros H. rewrite fromEditorConfig_indentSize, H.
  by destruct (get config "indent_style" === VStr "tab").
Qed.

(** C6. [fromEditorConfig({ indent_style: "tab", indent_size: "tab",
    tab_width: 4 }, {})] has [tabSize] 4 and [indentSize] ["tabSize"]. *)
Theorem fromEditorConfig_tab_sentinel_example :
  get (fromEditorConfig {[ "indent_style" := VStr "tab";
                           "indent_size" := VStr "tab";
                           "tab_width" := VNum (Finite 4) ]} ∅) "tabSize"
    = VNum (Finite 4)
  ∧ get (fromEditorConfig {[ "indent_style" := VStr "tab";
                             "indent_size" := VStr "tab";
                             "tab_width" := VNum (Finite 4) ]} ∅) "indentSize"
    = VStr "tabSize"
  ∧ fromEditorConfig {[ "indent_style" := VStr "tab";
                        "indent_size" := VStr "tab";
                        "tab_width" := VNum (Finite 4) ]} ∅
    = {[ "tabSize" := VNum (Finite 4);
         "indentSize" := VStr "tabSize";
         "insertSpaces" := VBool false ]}.
Proof. split; [|split]; vm_compute; reflexivity. Qed.

(** C7. For every options record with [insertSpaces === true],
    [toEditorConfig] sets [indent_style] to ["space"] and, when [tabSize] is
    truthy, [indent_size] to the resolved tab size; ["auto"] resolves to 4,
    and [toEditorConfig({ insertSpaces: true, tabSize: "auto" })] is
    [{ indent_style: "space", indent_size: 4 }]. *)
Theorem toEditorConfig_insertSpaces_true :
  (∀ options : obj,
     get options "insertSpaces" = VBool true ->
     toEditorConfig options !! "indent_style" = Some (VStr "space")
     ∧ (truthy (get options "tabSize") = true ->
        toEditorConfig options !! "indent_size"
        = Some (resolveTabSize (get options "tabSize"))))
  ∧ resolveTabSize (VStr "auto") = VNum (Finite 4)
  ∧ toEditorConfig {[ "insertSpaces" := VBool true; "tabSize" := VStr "auto" ]}
    = {[ "indent_style" := VStr "space"; "indent_size" := VNum (Finite 4) ]}.
Proof.
  split; [|split; vm_compute; reflexivity].
  intros options H. rewrite toEditorConfig_true by done.
  split.
  - case_match; by obj_simpl.
  - intros ->. by obj_simpl.
Qed.

(** On [{ insertSpaces: true, tabSize: 2 }]. *)
Lemma toEditorConfig_insertSpaces_true_witness :
  toEditorConfig {[ "insertSpaces" := VBool true; "tabSize" := VNum (Finite 2) ]}
    !! "indent_style" = Some (VStr "space")
  ∧ toEditorConfig {[ "insertSpaces" := VBool true; "tabSize" := VNum (Finite 2) ]}
    !! "indent_size" = Some (VNum (Finite 2)).
Proof.
  destruct (proj1 toEditorConfig_insertSpaces_true
              {[ "insertSpaces" := VBool true; "tabSize" := VNum (Finite 2) ]})
    as [Hstyle Hsize].
  - reflexivity.
  - split; [exact Hstyle|]. apply Hsize. reflexivity.
Defined.

(** C8. For every options record whose [insertSpaces] is neither [true],
    [false] nor ["auto"] (an absent one included), [toEditorConfig] returns
    the empty fragment; so does [toEditorConfig({ insertSpaces: undefined })]. *)
Theorem toEditorConfig_insertSpaces_other :
  (∀ options : obj,
     get options "insertSpaces" ≠ VBool true ->
     get options "insertSpaces" ≠ VBool false ->
     get options "insertSpaces" ≠ VStr "auto" ->
     toEditorConfig options = ∅)
  ∧ (∀ options : obj,
       options !! "insertSpaces" = None -> toEditorConfig options = ∅)
  ∧ toEditorConfig {[ "insertSpaces" := VUndefined ]} = ∅.
Proof.
  split; [apply toEditorConfig_otherwise|]. split.
  - intros options H. apply get_lookup_None in H.
    apply toEditorConfig_otherwise; by rewrite H.
  - apply toEditorConfig_otherwise; by rewrite get_singleton_eq.
Qed.

(** On an unknown string for [insertSpaces], and on its absence. *)
Lemma toEditorConfig_insertSpaces_other_witness :
  toEditorConfig {[ "insertSpaces" := VStr "maybe"; "tabSize" := VNum (Finite 2) ]} = ∅
  ∧ toEditorConfig {[ "tabSize" := VNum (Finite 2) ]} = ∅.
Proof.
  split.
  - apply (proj1 toEditorConfig_insertSpaces_other); vm_compute; discriminate.
  - apply (proj1 (proj2 toEditorConfig_insertSpaces_other)). reflexivity.
Defined.

(** C10. Two defaults records that differ only in [insertSpaces] give the
    same result for every config; the [insertSpaces] of the result is a
    function of [config.indent_style] and [config.indent_size] alone, although
    [pickWorkspaceDefaults] does supply an [insertSpaces] when indentation
    detection is off. *)
Theorem defaults_insertSpaces_noninterference :
  (∀ config d1 d2 : obj,
     delete "insertSpaces" d1 = delete "insertSpaces" d2 ->
     fromEditorConfig config d1 = fromEditorConfig config d2)
  ∧ (∀ c1 c2 d1 d2 : obj,
       get c1 "indent_style" = get c2 "indent_style" ->
       get c1 "indent_size" = get c2 "indent_size" ->
       fromEditorConfig c1 d1 !! "insertSpaces"
       = fromEditorConfig c2 d2 !! "insertSpaces")
  ∧ (∀ (host : Host) (doc : option TextDocument.t),
       truthy (get (getConfiguration host "editor" doc) "detectIndentation") = false ->
       pickWorkspaceDefaults host doc !! "insertSpaces"
       = Some (get (getConfiguration host "editor" doc) "insertSpaces")).
Proof.
  split; [|split].
  - intros config d1 d2 H.
    apply fromEditorConfig_defaults_read.
    + rewrite <- (get_delete_ne d1 "insertSpaces"), <- (get_delete_ne d2 "insertSpaces")
        by key_ne.
      by rewrite H.
    + rewrite <- (get_delete_ne d1 "insertSpaces"), <- (get_delete_ne d2 "insertSpaces")
        by key_ne.
      by rewrite H.
  - intros c1 c2 d1 d2 Hs Hi.
    by rewrite !fromEditorConfig_insertSpaces, Hs, Hi.
  - intros host doc H. unfold pickWorkspaceDefaults. cbv zeta.
    rewrite H. by obj_simpl.
Qed.

(** On the sample settings and their copy with [insertSpaces: false]. *)
Lemma defaults_insertSpaces_noninterference_witness :
  fromEditorConfig {[ "indent_size" := VNum (Finite 2) ]} sample_settings
    = fromEditorConfig {[ "indent_size" := VNum (Finite 2) ]} sample_settings_tabs
  ∧ fromEditorConfig {[ "indent_style" := VStr "space" ]} sample_settings
      !! "insertSpaces"
    = fromEditorConfig {[ "indent_style" := VStr "space"; "tab_width" := VNum (Finite 8) ]}
        sample_settings_tabs !! "insertSpaces"
  ∧ pickWorkspaceDefaults (sample_host None) (Some sample_doc) !! "insertSpaces"
    = Some (VBool true).
Proof.
  split; [|split].
  - apply (proj1 defaults_insertSpaces_noninterference). vm_compute. reflexivity.
  - apply (proj1 (proj2 defaults_insertSpaces_noninterference)); reflexivity.
  - apply (proj2 (proj2 defaults_insertSpaces_noninterference)
             (sample_host None) (Some sample_doc)).
    reflexivity.
Defined.

(** ** The entry points *)

(** The test on the resolved settings never fails: the merge with the
    workspace defaults is all that [resolveTextEditorOptions] does after
    [resolveCoreConfig]. *)
Lemma resolveTextEditorOptions_merges (host : Host) (doc : TextDocument.t)
    (hooks : ResolveHooks) (w : world) :
  resolveTextEditorOptions host doc hooks w =
    match resolveCoreConfig host doc (onBeforeResolve hooks) w with
    | Some (settings, w') =>
        Some (fromEditorConfig settings (pickWorkspaceDefaults host (Some doc)), w')
    | None => None
    end.
Proof. reflexivity. Qed.

(** What [resolveCoreConfig] leaves in the trace: at most the notification
    and the call of the parser. *)
Lemma resolveCoreConfig_trace (host : Host) (doc : TextDocument.t) (b : bool)
    (w w' : world) (settings : obj) :
  resolveCoreConfig host doc b w = Some (settings, w') ->
  heap w' = heap w ∧ activeTextEditor w' = activeTextEditor w
  ∧ ∃ t, trace w' = (trace w ++ t)%list
         ∧ ∀ e, e ∈ t -> (∃ rp, e = OnBeforeResolve rp) ∨ (∃ f, e = Parse f).
Proof.
  unfold resolveCoreConfig.
  destruct (truthy_string (File.fileName (resolveFile host doc))) as [fileName|].
  - unfold editorconfig_parse, bind, call_if, emit, ret.
    destruct (truthy_string (File.relativePath (resolveFile host doc))) as [rp|];
      [destruct b|]; simpl;
      destruct (parse host fileName); intros [= <- <-]; simpl;
      (split; [done|split; [done|]]); rewrite <- ?app_assoc; simpl;
      eexists; (split; [reflexivity|]); intros e He;
      repeat (apply elem_of_cons in He as [-> | He]); eauto;
      by apply elem_of_nil in He.
  - intros [= <- <-]. repeat split; try done.
    exists []. split; [by rewrite app_nil_r|]. intros e He. by apply elem_of_nil in He.
Qed.

(** [onEmptyConfig] is never called. *)
Lemma resolveTextEditorOptions_never_onEmptyConfig (host : Host)
    (doc : TextDocument.t) (hooks : ResolveHooks) (w w' : world) (r : obj) (rp : string) :
  resolveTextEditorOptions host doc hooks w = Some (r, w') ->
  OnEmptyConfig rp ∈ trace w' -> OnEmptyConfig rp ∈ trace w.
Proof.
  rewrite resolveTextEditorOptions_merges.
  destruct (resolveCoreConfig host doc (onBeforeResolve hooks) w)
    as [[settings w1]|] eqn:E; [|done].
  intros [= _ <-].
  apply resolveCoreConfig_trace in E as (_ & _ & t & -> & Ht).
  rewrite elem_of_app. intros [?|Hin]; [done|].
  destruct (Ht _ Hin) as [[? ?]|[? ?]]; discriminate.
Qed.

(** Without a file name the defaults are merged with an empty config, and
    nothing is looked up. *)
Lemma resolveTextEditorOptions_no_file (host : Host) (doc : TextDocument.t)
    (hooks : ResolveHooks) (w : world) :
  truthy_string (File.fileName (resolveFile host doc)) = None ->
  resolveTextEditorOptions host doc hooks w
  = Some (fromEditorConfig ∅ (pickWorkspaceDefaults host (Some doc)), w).
Proof.
  intros H. rewrite resolveTextEditorOptions_merges.
  unfold resolveCoreConfig. by rewrite H.
Qed.

(** With a file name and an empty parsed configuration, the result is again
    the merge of the defaults with an empty config. *)
Lemma resolveTextEditorOptions_empty_config (host : Host) (doc : TextDocument.t)
    (hooks : ResolveHooks) (w : world) (fileName : string) :
  truthy_string (File.fileName (resolveFile host doc)) = Some fileName ->
  parse host fileName = Some ∅ ->
  ∃ w', resolveTextEditorOptions host doc hooks w
        = Some (fromEditorConfig ∅ (pickWorkspaceDefaults host (Some doc)), w').
Proof.
  intros Hfile Hparse. rewrite resolveTextEditorOptions_merges.
  unfold resolveCoreConfig. rewrite Hfile.
  unfold editorconfig_parse, bind, call_if, emit, ret.
  destruct (truthy_string (File.relativePath (resolveFile host doc)));
    [destruct (onBeforeResolve hooks)|]; simpl; rewrite Hparse;
    rewrite get_empty; simpl; by eexists.
Qed.

(** C1, on the code: for [sample_doc], whose parsed configuration is empty,
    [resolveTextEditorOptions] returns the workspace defaults
    [{ tabSize: 4, indentSize: "tabSize" }] and calls [onBeforeResolve] and
    the parser, but not [onEmptyConfig], although both callbacks are given
    and the relative path exists. *)
Theorem resolveTextEditorOptions_empty_config_example :
  resolveTextEditorOptions (sample_host (Some ∅)) sample_doc all_resolve_hooks
    empty_world
  = Some ({[ "tabSize" := VNum (Finite 4); "indentSize" := VStr "tabSize" ]},
          World ∅ None [OnBeforeResolve "ws/src/main.ts"; Parse "/ws/src/main.ts"]).
Proof. vm_compute. reflexivity. Qed.

(** C2, on the code: for a [Log] document, and for an untitled document
    without a workspace folder, no file name is resolved and the parser is
    not called, yet the result is the record of the workspace defaults
    [{ tabSize: 4, indentSize: "tabSize" }], not the empty one. *)
Theorem resolveTextEditorOptions_no_file_example :
  File.fileName (resolveFile (sample_host (Some ∅)) log_doc) = None
  ∧ resolveTextEditorOptions (sample_host (Some ∅)) log_doc all_resolve_hooks
      empty_world
    = Some ({[ "tabSize" := VNum (Finite 4); "indentSize" := VStr "tabSize" ]},
            empty_world)
  ∧ File.fileName (resolveFile bare_host untitled_doc) = None
  ∧ resolveTextEditorOptions bare_host untitled_doc all_resolve_hooks empty_world
    = Some ({[ "tabSize" := VNum (Finite 4); "indentSize" := VStr "tabSize" ]},
            empty_world).
Proof. repeat split; vm_compute; reflexivity. Qed.

(** C9. With an active editor, when the host's [indentSize] setting is
    ["tabSize"], the new options have no [indentSize] and a numeric
    [tabSize], the [indentSize] of the editor's current options is assigned
    to the new options object; that object then becomes the editor's options
    and is the one passed to [onSuccess]. *)
Theorem applyTextEditorOptions_reconciles (host : Host) (w : world)
    (editor : TextEditor.t) (newOptions : loc) (o current : obj)
    (hooks : ApplyHooks) :
  activeTextEditor w = Some editor ->
  heap w !! newOptions = Some o ->
  heap w !! TextEditor.options editor = Some current ->
  get (getConfiguration host "editor" (Some (TextEditor.document editor)))
      "indentSize" = VStr "tabSize" ->
  get o "indentSize" = VUndefined ->
  typeof (get o "tabSize") = "number" ->
  ∃ w' : world,
    applyTextEditorOptions host newOptions hooks w = Some (tt, w')
    ∧ heap w' = <[newOptions := <["indentSize" := get current "indentSize"]> o]> (heap w)
    ∧ heap w' !! newOptions = Some (<["indentSize" := get current "indentSize"]> o)
    ∧ activeTextEditor w'
      = Some (TextEditor.Make (TextEditor.document editor) newOptions)
    ∧ trace w' = if onSuccess hooks then (trace w ++ [OnSuccess newOptions])%list
                 else trace w.
Proof.
  intros Hed Hnew Hcur Hcfg Hindent Htab.
  unfold applyTextEditorOptions, bind, getActiveTextEditor, load, store,
    setActiveTextEditor, call_if, emit, ret.
  rewrite Hed, Hcfg. simpl. rewrite Hnew, Hindent, Htab. simpl.
  rewrite Hcur, Hnew.
  destruct (onSuccess hooks); simpl; eexists; (split; [reflexivity|]); simpl;
    by rewrite lookup_insert_eq.
Qed.

(** On [editing_world]: the editor's [indentSize] 8 is carried over to the
    new options [{ tabSize: 2 }]. *)
Lemma applyTextEditorOptions_reconciles_witness :
  ∃ w' : world,
    applyTextEditorOptions (sample_host None) 2%positive all_apply_hooks editing_world
    = Some (tt, w')
    ∧ heap w' !! 2%positive
      = Some {[ "tabSize" := VNum (Finite 2); "indentSize" := VNum (Finite 8) ]}
    ∧ activeTextEditor w' = Some (TextEditor.Make sample_doc 2%positive)
    ∧ trace w' = [OnSuccess 2%positive].
Proof.
  destruct (applyTextEditorOptions_reconciles (sample_host None) editing_world
              (TextEditor.Make sample_doc 1%positive) 2%positive
              {[ "tabSize" := VNum (Finite 2) ]}
              {[ "tabSize" := VNum (Finite 4);
                 "indentSize" := VNum (Finite 8);
                 "insertSpaces" := VBool true ]}
              all_apply_hooks)
    as (w' & Hrun & _ & Hnew & Hed & Htrace); try reflexivity.
  exists w'. split; [exact Hrun|]. split; [|split; [exact Hed | exact Htrace]].
  refine (eq_trans Hnew _). reflexivity.
Defined.

(** * Further properties *)

(** ** Values that pass the guards *)

Lemma nullish_defined (a b : value) : a ≠ VUndefined -> a ?? b = a.
Proof. by destruct a. Qed.

Lemma strict_eq_VStr_ne (v : value) (s : string) : v ≠ VStr s -> (v === VStr s) = false.
Proof. intros H. rewrite strict_eq_VStr. by apply bool_decide_eq_false_2. Qed.

Lemma strict_eq_VUndefined_ne (v : value) : v ≠ VUndefined -> (v === VUndefined) = false.
Proof. intros H. rewrite strict_eq_VUndefined. by apply bool_decide_eq_false_2. Qed.

(** What the two final [delete]s let through. *)
Lemma kept_value (t v : value) :
  (if (t === VUndefined) || (t === VStr "unset") then None else Some t) = Some v ->
  v = t ∧ v ≠ VUndefined ∧ v ≠ VStr "unset".
Proof.
  rewrite strict_eq_VUndefined, strict_eq_VStr.
  do 2 case_bool_decide; simpl; try done.
  by intros [= <-].
Qed.

Lemma kept_value_intro (t : value) :
  t ≠ VUndefined -> t ≠ VStr "unset" ->
  (if (t === VUndefined) || (t === VStr "unset") then None else Some t) = Some t.
Proof.
  intros Hu Hs. by rewrite strict_eq_VUndefined_ne, strict_eq_VStr_ne.
Qed.

(** ** More on [fromEditorConfig] *)

(** The result has at most the keys [tabSize], [indentSize] and
    [insertSpaces]; a size is neither [undefined] nor ["unset"], the indent
    size is never the EditorConfig sentinel ["tab"], and [insertSpaces] is a
    boolean. *)
Theorem fromEditorConfig_result_shape (config defaults : obj) (k : string) (v : value) :
  fromEditorConfig config defaults !! k = Some v ->
  (k = "tabSize" ∧ v ≠ VUndefined ∧ v ≠ VStr "unset")
  ∨ (k = "indentSize" ∧ v ≠ VUndefined ∧ v ≠ VStr "unset" ∧ v ≠ VStr "tab")
  ∨ (k = "insertSpaces" ∧ (v = VBool true ∨ v = VBool false)).
Proof.
  destruct (decide (k = "tabSize")) as [->|?];
    [|destruct (decide (k = "indentSize")) as [->|?];
      [|destruct (decide (k = "insertSpaces")) as [->|?]]].
  - rewrite fromEditorConfig_tabSize. cbv zeta.
    intros (_ & ? & ?)%kept_value. by left.
  - rewrite fromEditorConfig_indentSize. cbv zeta.
    intros (-> & ? & ?)%kept_value. right; left. repeat split; try done.
    rewrite strict_eq_VStr. by case_bool_decide.
  - rewrite fromEditorConfig_insertSpaces. case_match; [|done].
    intros [= <-]. right; right. split; [done|].
    destruct (get config "indent_style" === VStr "space"); [by left | by right].
  - by rewrite fromEditorConfig_other_keys.
Qed.

(** On [{ indent_style: "tab", indent_size: "tab", tab_width: 4 }]. *)
Lemma fromEditorConfig_result_shape_witness :
  ("indentSize" = "tabSize" ∧ VStr "tabSize" ≠ VUndefined ∧ VStr "tabSize" ≠ VStr "unset")
  ∨ ("indentSize" = "indentSize" ∧ VStr "tabSize" ≠ VUndefined
     ∧ VStr "tabSize" ≠ VStr "unset" ∧ VStr "tabSize" ≠ VStr "tab")
  ∨ ("indentSize" = "insertSpaces"
     ∧ (VStr "tabSize" = VBool true ∨ VStr "tabSize" = VBool false)).
Proof.
  apply (fromEditorConfig_result_shape
           {[ "indent_style" := VStr "tab"; "indent_size" := VStr "tab";
              "tab_width" := VNum (Finite 4) ]} ∅).
  vm_compute. reflexivity.
Defined.

(** [insertSpaces] is set exactly when [indent_style] is ["tab"] or
    ["space"] or [indent_size] is ["tab"], and it is [true] exactly when
    [indent_style] is ["space"]. *)
Theorem insertSpaces_set_iff (config defaults : obj) :
  (is_Some (fromEditorConfig config defaults !! "insertSpaces") ↔
     get config "indent_style" = VStr "tab"
     ∨ get config "indent_style" = VStr "space"
     ∨ get config "indent_size" = VStr "tab")
  ∧ (fromEditorConfig config defaults !! "insertSpaces" = Some (VBool true) ↔
     get config "indent_style" = VStr "space").
Proof.
  rewrite fromEditorConfig_insertSpaces, !strict_eq_VStr.
  split; split.
  - repeat case_bool_decide; simpl; intros [? ?]; by eauto.
  - intros [H | [H | H]]; rewrite H; repeat case_bool_decide; simpl; by eauto.
  - repeat case_bool_decide; simpl; by try intros [=].
  - intros ->. repeat case_bool_decide; simpl; done.
Qed.

(** With [indent_size = tab] alone, [insertSpaces] is set, to [false]. *)
Lemma insertSpaces_set_iff_witness :
  is_Some (fromEditorConfig {[ "indent_size" := VStr "tab" ]} sample_settings
             !! "insertSpaces")
  ∧ fromEditorConfig {[ "indent_style" := VStr "space" ]} sample_settings
      !! "insertSpaces" = Some (VBool true).
Proof.
  split.
  - apply (proj1 (insertSpaces_set_iff {[ "indent_size" := VStr "tab" ]} sample_settings)).
    right; right. reflexivity.
  - apply (proj2 (insertSpaces_set_iff {[ "indent_style" := VStr "space" ]} sample_settings)).
    reflexivity.
Defined.

Lemma fromEditorConfig_tabSize_config (config defaults : obj) :
  get config "tab_width" ≠ VUndefined ->
  get config "tab_width" ≠ VStr "tab" ->
  get config "tab_width" ≠ VStr "unset" ->
  fromEditorConfig config defaults !! "tabSize" = Some (get config "tab_width").
Proof.
  intros Hu Ht Hs. rewrite fromEditorConfig_tabSize. cbv zeta.
  assert ((if get config "indent_style" === VStr "tab"
           then get config "tab_width" ?? get config "indent_size"
           else get config "tab_width") ?? get defaults "tabSize"
          = get config "tab_width") as ->.
  { destruct (_ === _); by rewrite !(nullish_defined (get config "tab_width")). }
  rewrite (strict_eq_VStr_ne _ "tab") by done. by apply kept_value_intro.
Qed.

Lemma fromEditorConfig_indentSize_config (config defaults : obj) :
  get config "indent_size" ≠ VUndefined ->
  get config "indent_size" ≠ VStr "tab" ->
  get config "indent_size" ≠ VStr "unset" ->
  fromEditorConfig config defaults !! "indentSize" = Some (get config "indent_size").
Proof.
  intros Hu Ht Hs. rewrite fromEditorConfig_indentSize. cbv zeta.
  assert ((if get config "indent_style" === VStr "tab"
           then get config "indent_size" ?? VStr "tabSize"
           else get config "indent_size") ?? get defaults "indentSize"
          = get config "indent_size") as ->.
  { destruct (_ === _); by rewrite !(nullish_defined (get config "indent_size")). }
  rewrite (strict_eq_VStr_ne _ "tab") by done. by apply kept_value_intro.
Qed.

(** A [tab_width] or [indent_size] of the config that is a real value (not
    [undefined], ["tab"] or ["unset"]) becomes the [tabSize], respectively the
    [indentSize], whatever the defaults and the [indent_style]. *)
Theorem config_sizes_override_defaults (config defaults : obj) :
  (get config "tab_width" ≠ VUndefined ->
   get config "tab_width" ≠ VStr "tab" ->
   get config "tab_width" ≠ VStr "unset" ->
   fromEditorConfig config defaults !! "tabSize" = Some (get config "tab_width"))
  ∧ (get config "indent_size" ≠ VUndefined ->
     get config "indent_size" ≠ VStr "tab" ->
     get config "indent_size" ≠ VStr "unset" ->
     fromEditorConfig config defaults !! "indentSize" = Some (get config "indent_size")).
Proof.
  split; [apply fromEditorConfig_tabSize_config | apply fromEditorConfig_indentSize_config].
Qed.

(** The config [{ indent_size: 2, tab_width: 8 }] against the sample
    settings. *)
Lemma config_sizes_override_defaults_witness :
  fromEditorConfig {[ "indent_size" := VNum (Finite 2); "tab_width" := VNum (Finite 8) ]}
    sample_settings !! "tabSize" = Some (VNum (Finite 8))
  ∧ fromEditorConfig {[ "indent_size" := VNum (Finite 2); "tab_width" := VNum (Finite 8) ]}
      sample_settings !! "indentSize" = Some (VNum (Finite 2)).
Proof.
  destruct (config_sizes_override_defaults
              {[ "indent_size" := VNum (Finite 2); "tab_width" := VNum (Finite 8) ]}
              sample_settings) as [Htab Hindent].
  split.
  - etrans; [apply Htab; vm_compute; discriminate | reflexivity].
  - etrans; [apply Hindent; vm_compute; discriminate | reflexivity].
Defined.

(** ["unset"] in the config switches the workspace default off: with
    [tab_width = unset] the result has no [tabSize], with
    [indent_size = unset] no [indentSize], whatever the defaults hold. *)
Theorem unset_suppresses_defaults (config defaults : obj) :
  (get config "tab_width" = VStr "unset" ->
   fromEditorConfig config defaults !! "tabSize" = None)
  ∧ (get config "indent_size" = VStr "unset" ->
     fromEditorConfig config defaults !! "indentSize" = None).
Proof.
  split; intros H.
  - rewrite fromEditorConfig_tabSize, H. by destruct (_ === _).
  - rewrite fromEditorConfig_indentSize, H. by destruct (_ === _).
Qed.

(** [{ tab_width: unset, indent_size: unset }] against the sample settings. *)
Lemma unset_suppresses_defaults_witness :
  fromEditorConfig {[ "tab_width" := VStr "unset"; "indent_size" := VStr "unset" ]}
    sample_settings !! "tabSize" = None
  ∧ fromEditorConfig {[ "tab_width" := VStr "unset"; "indent_size" := VStr "unset" ]}
      sample_settings !! "indentSize" = None.
Proof.
  split.
  - apply (proj1 (unset_suppresses_defaults
             {[ "tab_width" := VStr "unset"; "indent_size" := VStr "unset" ]}
             sample_settings)). reflexivity.
  - apply (proj2 (unset_suppresses_defaults
             {[ "tab_width" := VStr "unset"; "indent_size" := VStr "unset" ]}
             sample_settings)). reflexivity.
Defined.

(** Under [indent_style = tab]: without an [indent_size] the indent size
    mirrors the tab size (the default is not consulted); without a
    [tab_width] a real [indent_size] is the tab size; and when the
    [indent_size] is ["tab"] and there is no [tab_width], no [tabSize] is set
    at all, not even the default one. *)
Theorem indent_style_tab_fallbacks (config defaults : obj) :
  get config "indent_style" = VStr "tab" ->
  (get config "indent_size" = VUndefined ->
   fromEditorConfig config defaults !! "indentSize" = Some (VStr "tabSize"))
  ∧ (get config "tab_width" = VUndefined ->
     get config "indent_size" ≠ VUndefined ->
     get config "indent_size" ≠ VStr "tab" ->
     get config "indent_size" ≠ VStr "unset" ->
     fromEditorConfig config defaults !! "tabSize" = Some (get config "indent_size"))
  ∧ (get config "tab_width" = VUndefined ->
     get config "indent_size" = VStr "tab" ->
     fromEditorConfig config defaults !! "tabSize" = None).
Proof.
  intros Hstyle. split; [|split].
  - intros Hi. by rewrite fromEditorConfig_indentSize, Hstyle, Hi.
  - intros Hw Hu Ht Hs. rewrite fromEditorConfig_tabSize, Hstyle, Hw.
    cbv zeta. change (VStr "tab" === VStr "tab") with true. cbv iota.
    change (VUndefined ?? get config "indent_size") with (get config "indent_size").
    rewrite nullish_defined by done.
    rewrite (strict_eq_VStr_ne _ "tab") by done. by apply kept_value_intro.
  - intros Hw Hi. by rewrite fromEditorConfig_tabSize, Hstyle, Hw, Hi.
Qed.

(** On [{ indent_style: tab }], [{ indent_style: tab, indent_size: 2 }] and
    [{ indent_style: tab, indent_size: tab }]. *)
Lemma indent_style_tab_fallbacks_witness :
  fromEditorConfig {[ "indent_style" := VStr "tab" ]} sample_settings
    !! "indentSize" = Some (VStr "tabSize")
  ∧ fromEditorConfig {[ "indent_style" := VStr "tab"; "indent_size" := VNum (Finite 2) ]}
      sample_settings !! "tabSize" = Some (VNum (Finite 2))
  ∧ fromEditorConfig {[ "indent_style" := VStr "tab"; "indent_size" := VStr "tab" ]}
      sample_settings !! "tabSize" = None.
Proof.
  split; [|split].
  - apply (indent_style_tab_fallbacks {[ "indent_style" := VStr "tab" ]}
             sample_settings); reflexivity.
  - destruct (indent_style_tab_fallbacks
                {[ "indent_style" := VStr "tab"; "indent_size" := VNum (Finite 2) ]}
                sample_settings) as (_ & Htab & _); [reflexivity|].
    etrans; [apply Htab; try reflexivity; vm_compute; discriminate | reflexivity].
  - apply (indent_style_tab_fallbacks
             {[ "indent_style" := VStr "tab"; "indent_size" := VStr "tab" ]}
             sample_settings); reflexivity.
Defined.

(** Where the config is silent the defaults decide, as for the empty config:
    without [indent_style = tab] and without a [tab_width] the [tabSize] is
    the one of [fromEditorConfig({}, defaults)], and without an [indent_size]
    so is the [indentSize]. *)
Theorem silent_config_uses_defaults (config defaults : obj) :
  get config "indent_style" ≠ VStr "tab" ->
  (get config "tab_width" = VUndefined ->
   fromEditorConfig config defaults !! "tabSize"
   = fromEditorConfig ∅ defaults !! "tabSize")
  ∧ (get config "indent_size" = VUndefined ->
     fromEditorConfig config defaults !! "indentSize"
     = fromEditorConfig ∅ defaults !! "indentSize").
Proof.
  intros Hstyle. split; intros H.
  - rewrite !fromEditorConfig_tabSize, !get_empty, H.
    by rewrite (strict_eq_VStr_ne _ "tab" Hstyle).
  - rewrite !fromEditorConfig_indentSize, !get_empty, H.
    by rewrite (strict_eq_VStr_ne _ "tab" Hstyle).
Qed.

(** On [{ indent_style: space }]. *)
Lemma silent_config_uses_defaults_witness :
  fromEditorConfig {[ "indent_style" := VStr "space" ]} sample_settings !! "tabSize"
    = fromEditorConfig ∅ sample_settings !! "tabSize"
  ∧ fromEditorConfig {[ "indent_style" := VStr "space" ]} sample_settings !! "indentSize"
    = fromEditorConfig ∅ sample_settings !! "indentSize".
Proof.
  split.
  - apply (silent_config_uses_defaults {[ "indent_style" := VStr "space" ]}
             sample_settings); [vm_compute; discriminate | reflexivity].
  - apply (silent_config_uses_defaults {[ "indent_style" := VStr "space" ]}
             sample_settings); [vm_compute; discriminate | reflexivity].
Defined.

(** Only [indent_style], [indent_size] and [tab_width] of the config are
    read: two configs that agree on them (whatever else they hold, and
    whether a key is absent or holds [undefined]) give the same options. *)
Theorem fromEditorConfig_reads_three_keys (c1 c2 defaults : obj) :
  get c1 "indent_style" = get c2 "indent_style" ->
  get c1 "indent_size" = get c2 "indent_size" ->
  get c1 "tab_width" = get c2 "tab_width" ->
  fromEditorConfig c1 defaults = fromEditorConfig c2 defaults.
Proof. unfold fromEditorConfig. by intros -> -> ->. Qed.

(** With and without [end_of_line] and an [indent_size] key holding
    [undefined]. *)
Lemma fromEditorConfig_reads_three_keys_witness :
  fromEditorConfig {[ "indent_style" := VStr "space"; "end_of_line" := VStr "lf";
                      "indent_size" := VUndefined ]} sample_settings
  = fromEditorConfig {[ "indent_style" := VStr "space" ]} sample_settings.
Proof.
  apply fromEditorConfig_reads_three_keys; reflexivity.
Defined.

(** ** More on [toEditorConfig] *)

Lemma typeof_resolveTabSize (v : value) : typeof (resolveTabSize v) = "number".
Proof. unfold resolveTabSize. by destruct (_ === _). Qed.




(** For [insertSpaces] [false] or ["auto"], [toEditorConfig] sets
    [indent_style] to ["tab"], never sets [indent_size], and sets [tab_width]
    to the resolved tab size exactly when [tabSize] is truthy. *)
Theorem toEditorConfig_insertSpaces_false_or_auto (options : obj) :
  get options "insertSpaces" = VBool false ∨ get options "insertSpaces" = VStr "auto" ->
  toEditorConfig options !! "indent_style" = Some (VStr "tab")
  ∧ toEditorConfig options !! "indent_size" = None
  ∧ toEditorConfig options !! "tab_width"
    = if truthy (get options "tabSize")
      then Some (resolveTabSize (get options "tabSize"))
      else None.
Proof.
  intros H. rewrite toEditorConfig_false_or_auto by done.
  destruct (truthy _); by obj_simpl.
Qed.

(** On [{ insertSpaces: "auto", tabSize: "auto" }]. *)
Lemma toEditorConfig_insertSpaces_false_or_auto_witness :
  toEditorConfig {[ "insertSpaces" := VStr "auto"; "tabSize" := VStr "auto" ]}
    !! "indent_style" = Some (VStr "tab")
  ∧ toEditorConfig {[ "insertSpaces" := VStr "auto"; "tabSize" := VStr "auto" ]}
      !! "indent_size" = None
  ∧ toEditorConfig {[ "insertSpaces" := VStr "auto"; "tabSize" := VStr "auto" ]}
      !! "tab_width" = Some (VNum (Finite 4)).
Proof.
  destruct (toEditorConfig_insertSpaces_false_or_auto
              {[ "insertSpaces" := VStr "auto"; "tabSize" := VStr "auto" ]})
    as (Hstyle & Hsize & Hwidth); [right; reflexivity|].
  split; [exact Hstyle|]. split; [exact Hsize|].
  etrans; [exact Hwidth | reflexivity].
Defined.

(** The fragment holds [indent_style] (["space"] or ["tab"]) and at most one
    size, always a number: [indent_size] only beside ["space"], [tab_width]
    only beside ["tab"]. *)
Theorem toEditorConfig_result_shape (options : obj) (k : string) (v : value) :
  toEditorConfig options !! k = Some v ->
  (k = "indent_style" ∧ (v = VStr "space" ∨ v = VStr "tab"))
  ∨ (k = "indent_size" ∧ typeof v = "number"
     ∧ toEditorConfig options !! "indent_style" = Some (VStr "space")
     ∧ toEditorConfig options !! "tab_width" = None)
  ∨ (k = "tab_width" ∧ typeof v = "number"
     ∧ toEditorConfig options !! "indent_style" = Some (VStr "tab")
     ∧ toEditorConfig options !! "indent_size" = None).
Proof.
  destruct (decide (get options "insertSpaces" = VBool true)) as [Ht|Ht];
    [|destruct (decide (get options "insertSpaces" = VBool false
                        ∨ get options "insertSpaces" = VStr "auto")) as [Hf|Hf]].
  - rewrite toEditorConfig_true by done.
    destruct (truthy _).
    + rewrite lookup_insert_Some, lookup_singleton_Some.
      intros [[<- <-] | [_ [<- <-]]]; [left; by eauto|].
      right; left. split; [done|]. split; [apply typeof_resolveTabSize|].
      by obj_simpl.
    + rewrite lookup_singleton_Some. intros [<- <-]. left; by eauto.
  - rewrite toEditorConfig_false_or_auto by done.
    destruct (truthy _).
    + rewrite lookup_insert_Some, lookup_singleton_Some.
      intros [[<- <-] | [_ [<- <-]]]; [left; by eauto|].
      right; right. split; [done|]. split; [apply typeof_resolveTabSize|].
      by obj_simpl.
    + rewrite lookup_singleton_Some. intros [<- <-]. left; by eauto.
  - rewrite toEditorConfig_otherwise; [by rewrite lookup_empty | done | tauto | tauto].
Qed.

(** On [{ insertSpaces: true, tabSize: 2 }], at [indent_size]. *)
Lemma toEditorConfig_result_shape_witness :
  toEditorConfig {[ "insertSpaces" := VBool true; "tabSize" := VNum (Finite 2) ]}
    !! "indent_style" = Some (VStr "space")
  ∧ toEditorConfig {[ "insertSpaces" := VBool true; "tabSize" := VNum (Finite 2) ]}
      !! "tab_width" = None.
Proof.
  destruct (toEditorConfig_result_shape
              {[ "insertSpaces" := VBool true; "tabSize" := VNum (Finite 2) ]}
              "indent_size" (VNum (Finite 2)))
    as [[E _] | [(_ & _ & Hstyle & Hwidth) | [E _]]];
    [vm_compute; reflexivity | discriminate E | by split | discriminate E].
Defined.



(** A falsy [tabSize] ([undefined], 0, [NaN], the empty string) gives no size
    at all: the fragment is [indent_style] alone, or empty. *)
Theorem toEditorConfig_falsy_tabSize (options : obj) :
  truthy (get options "tabSize") = false ->
  toEditorConfig options !! "indent_size" = None
  ∧ toEditorConfig options !! "tab_width" = None.
Proof.
  intros H.
  destruct (decide (get options "insertSpaces" = VBool true)) as [Ht|Ht];
    [|destruct (decide (get options "insertSpaces" = VBool false
                        ∨ get options "insertSpaces" = VStr "auto")) as [Hf|Hf]].
  - rewrite toEditorConfig_true, H by done. by obj_simpl.
  - rewrite toEditorConfig_false_or_auto, H by done. by obj_simpl.
  - rewrite toEditorConfig_otherwise; [by rewrite !lookup_empty | done | tauto | tauto].
Qed.

(** On [{ insertSpaces: true, tabSize: 0 }]. *)
Lemma toEditorConfig_falsy_tabSize_witness :
  toEditorConfig {[ "insertSpaces" := VBool true; "tabSize" := VNum (Finite 0) ]}
    !! "indent_size" = None
  ∧ toEditorConfig {[ "insertSpaces" := VBool true; "tabSize" := VNum (Finite 0) ]}
      !! "tab_width" = None.
Proof.
  apply (toEditorConfig_falsy_tabSize
           {[ "insertSpaces" := VBool true; "tabSize" := VNum (Finite 0) ]}).
  reflexivity.
Defined.



(** ** The two conversions composed *)

(** A boolean [insertSpaces] survives [toEditorConfig] followed by
    [fromEditorConfig], whatever the defaults. *)
Theorem insertSpaces_round_trip (options defaults : obj) (b : bool) :
  get options "insertSpaces" = VBool b ->
  fromEditorConfig (toEditorConfig options) defaults !! "insertSpaces"
  = Some (VBool b).
Proof.
  intros H. rewrite fromEditorConfig_insertSpaces.
  destruct b.
  - rewrite toEditorConfig_true by done.
    destruct (truthy _); obj_simpl; simpl; by rewrite ?orb_true_r.
  - rewrite toEditorConfig_false_or_auto by (by left).
    destruct (truthy _); by obj_simpl.
Qed.

(** On [{ insertSpaces: false, tabSize: 4 }] against the sample settings,
    whose own [insertSpaces] is [true]. *)
Lemma insertSpaces_round_trip_witness :
  fromEditorConfig
    (toEditorConfig {[ "insertSpaces" := VBool false; "tabSize" := VNum (Finite 4) ]})
    sample_settings !! "insertSpaces" = Some (VBool false).
Proof.
  apply (insertSpaces_round_trip
           {[ "insertSpaces" := VBool false; "tabSize" := VNum (Finite 4) ]}
           sample_settings false).
  reflexivity.
Defined.







(** ** The file of a document *)

(** No file is resolved exactly for a [Log] document and for an untitled
    document when there is no first workspace folder. *)
Theorem resolveFile_no_file_iff (host : Host) (doc : TextDocument.t) :
  File.fileName (resolveFile host doc) = None ↔
  TextDocument.languageId doc = "Log"
  ∨ (TextDocument.isUntitled doc = true ∧ workspaceFolders host ≫= head = None).
Proof.
  unfold resolveFile, getFile. cbn [strict_eq].
  destruct (String.eqb_spec (TextDocument.languageId doc) "Log") as [Hlog|Hlog].
  - split; [by left | done].
  - destruct (TextDocument.isUntitled doc); simpl.
    + destruct (workspaceFolders host ≫= head); simpl; split; try done.
      * intros [? | [_ ?]]; done.
      * by right.
    + split; [done|]. intros [? | [? _]]; done.
Qed.

(** A [Log] document that is saved as a file, and an untitled document on a
    host without workspace folders. *)
Lemma resolveFile_no_file_iff_witness :
  File.fileName (resolveFile (sample_host None) log_doc) = None
  ∧ File.fileName (resolveFile bare_host untitled_doc) = None.
Proof.
  split.
  - apply (proj2 (resolveFile_no_file_iff (sample_host None) log_doc)).
    left. reflexivity.
  - apply (proj2 (resolveFile_no_file_iff bare_host untitled_doc)).
    right. split; reflexivity.
Defined.

(** The file name and the relative path are both defined or both
    [undefined]. *)
Theorem resolveFile_both_or_neither (host : Host) (doc : TextDocument.t) :
  File.fileName (resolveFile host doc) = None ↔
  File.relativePath (resolveFile host doc) = None.
Proof.
  unfold resolveFile. destruct (_ === _); [done|].
  by destruct (getFile host doc).
Qed.

(** On the [Log] document. *)
Lemma resolveFile_both_or_neither_witness :
  File.relativePath (resolveFile (sample_host None) log_doc) = None.
Proof.
  apply (proj1 (resolveFile_both_or_neither (sample_host None) log_doc)).
  reflexivity.
Defined.

(** For a document that is not a [Log]: a saved one resolves to its own URI,
    an untitled one to its file name joined to the first workspace folder,
    whatever the other folders are. *)
Theorem resolveFile_file (host : Host) (doc : TextDocument.t) :
  TextDocument.languageId doc ≠ "Log" ->
  (TextDocument.isUntitled doc = false ->
   resolveFile host doc
   = File.Make (Some (Uri.fsPath (TextDocument.uri doc)))
               (Some (asRelativePath host (TextDocument.uri doc) true)))
  ∧ (∀ folder others,
       TextDocument.isUntitled doc = true ->
       workspaceFolders host = Some (folder :: others) ->
       resolveFile host doc
       = File.Make
           (Some (Uri.fsPath (joinPath host (WorkspaceFolder.uri folder)
                                (TextDocument.fileName doc))))
           (Some (asRelativePath host
                    (joinPath host (WorkspaceFolder.uri folder)
                       (TextDocument.fileName doc)) true))).
Proof.
  intros Hlog. unfold resolveFile, getFile. cbn [strict_eq].
  apply String.eqb_neq in Hlog. rewrite Hlog.
  split.
  - by intros ->.
  - by intros folder others -> ->.
Qed.

(** The saved sample document, and the untitled one under [/ws]. *)
Lemma resolveFile_file_witness :
  resolveFile (sample_host None) sample_doc
    = File.Make (Some "/ws/src/main.ts") (Some "ws/src/main.ts")
  ∧ resolveFile (sample_host None) untitled_doc
    = File.Make (Some "/ws/Untitled-1") (Some "ws/Untitled-1").
Proof.
  split.
  - destruct (resolveFile_file (sample_host None) sample_doc) as [Hsaved _];
      [discriminate|].
    etrans; [apply Hsaved; reflexivity | reflexivity].
  - destruct (resolveFile_file (sample_host None) untitled_doc) as [_ Hnew];
      [discriminate|].
    etrans; [eapply Hnew; reflexivity | reflexivity].
Defined.

(** ** The workspace defaults *)

(** No default at all is picked exactly when [detectIndentation] is truthy;
    otherwise the three keys are there, whatever the settings hold. *)
Theorem pickWorkspaceDefaults_empty_iff (host : Host) (doc : option TextDocument.t) :
  (pickWorkspaceDefaults host doc = ∅ ↔
   truthy (get (getConfiguration host "editor" doc) "detectIndentation") = true)
  ∧ (truthy (get (getConfiguration host "editor" doc) "detectIndentation") = false ->
     ∀ k, is_Some (pickWorkspaceDefaults host doc !! k) ↔
          k = "tabSize" ∨ k = "indentSize" ∨ k = "insertSpaces").
Proof.
  unfold pickWorkspaceDefaults. cbv zeta.
  destruct (truthy _); (split; [split|]); try done.
  intros _ k.
  destruct (decide (k = "tabSize")) as [->|?];
    [|destruct (decide (k = "indentSize")) as [->|?];
      [|destruct (decide (k = "insertSpaces")) as [->|?]]]; obj_simpl.
  - split; [by left | by eauto].
  - split; [by right; left | by eauto].
  - split; [by right; right | by eauto].
  - split; [by intros [? ?] | by intros [? | [? | ?]]].
Qed.

(** On the sample host, where detection is off. *)
Lemma pickWorkspaceDefaults_empty_iff_witness :
  is_Some (pickWorkspaceDefaults (sample_host None) (Some sample_doc) !! "indentSize").
Proof.
  apply (proj2 (pickWorkspaceDefaults_empty_iff (sample_host None) (Some sample_doc)));
    [reflexivity | right; left; reflexivity].
Defined.

(** ** Resolving the options of a document *)

(** One run of [resolveCoreConfig] on a document with a file. *)
Lemma resolveCoreConfig_run (host : Host) (doc : TextDocument.t) (b : bool)
    (w : world) (fileName : string) :
  truthy_string (File.fileName (resolveFile host doc)) = Some fileName ->
  resolveCoreConfig host doc b w =
    match parse host fileName with
    | Some config =>
        Some (if get config "indent_size" === VStr "tab"
              then <["indent_size" := get config "tab_width"]> config
              else config,
              World (heap w) (activeTextEditor w)
                (trace w
                 ++ match truthy_string (File.relativePath (resolveFile host doc)) with
                    | Some rp => if b then [OnBeforeResolve rp] else []
                    | None => []
                    end
                 ++ [Parse fileName])%list)
    | None => None
    end.
Proof.
  intros Hfile. unfold resolveCoreConfig. rewrite Hfile.
  unfold editorconfig_parse, bind, call_if, emit, ret.
  destruct (truthy_string (File.relativePath (resolveFile host doc)));
    [destruct b|]; simpl; destruct (parse host fileName); simpl;
    by rewrite <- ?app_assoc.
Qed.

(** The settings that [resolveCoreConfig] returns hold the sentinel ["tab"] as
    [indent_size] only when their [tab_width] is ["tab"] itself. *)
Theorem resolveCoreConfig_normalises (host : Host) (doc : TextDocument.t) (b : bool)
    (w w' : world) (settings : obj) :
  resolveCoreConfig host doc b w = Some (settings, w') ->
  get settings "tab_width" ≠ VStr "tab" ->
  get settings "indent_size" ≠ VStr "tab".
Proof.
  destruct (truthy_string (File.fileName (resolveFile host doc))) as [fileName|] eqn:Hfile.
  - rewrite (resolveCoreConfig_run _ _ _ _ _ Hfile).
    destruct (parse host fileName) as [config|]; [|done].
    intros [= <- _].
    rewrite strict_eq_VStr. case_bool_decide as Hi; [|done].
    rewrite get_insert_eq, get_insert_ne by key_ne. done.
  - unfold resolveCoreConfig. rewrite Hfile. intros [= <- _].
    by rewrite get_empty.
Qed.

(** The parsed [{ indent_size: tab, tab_width: 4 }] of the sample document. *)
Lemma resolveCoreConfig_normalises_witness :
  get {[ "indent_size" := VNum (Finite 4); "tab_width" := VNum (Finite 4) ]}
    "indent_size" ≠ VStr "tab".
Proof.
  apply (resolveCoreConfig_normalises
           (sample_host (Some {[ "indent_size" := VStr "tab";
                                 "tab_width" := VNum (Finite 4) ]}))
           sample_doc true empty_world
           (World ∅ None [OnBeforeResolve "ws/src/main.ts"; Parse "/ws/src/main.ts"])).
  - vm_compute. reflexivity.
  - vm_compute. discriminate.
Defined.

(** For a document with a file whose configuration parses,
    [resolveTextEditorOptions] calls [onBeforeResolve] (when given, and when
    there is a relative path) and then the parser, once and on the file name;
    it converts the normalised configuration against the workspace defaults
    and leaves the editor and the option objects alone. *)
Theorem resolveTextEditorOptions_with_file (host : Host) (doc : TextDocument.t)
    (hooks : ResolveHooks) (w : world) (fileName : string) (config : obj) :
  truthy_string (File.fileName (resolveFile host doc)) = Some fileName ->
  parse host fileName = Some config ->
  resolveTextEditorOptions host doc hooks w =
    Some (fromEditorConfig
            (if get config "indent_size" === VStr "tab"
             then <["indent_size" := get config "tab_width"]> config
             else config)
            (pickWorkspaceDefaults host (Some doc)),
          World (heap w) (activeTextEditor w)
            (trace w
             ++ match truthy_string (File.relativePath (resolveFile host doc)) with
                | Some rp => if onBeforeResolve hooks then [OnBeforeResolve rp] else []
                | None => []
                end
             ++ [Parse fileName])%list).
Proof.
  intros Hfile Hparse.
  rewrite resolveTextEditorOptions_merges, (resolveCoreConfig_run _ _ _ _ _ Hfile).
  by rewrite Hparse.
Qed.

(** The sample document with [{ indent_style: space, indent_size: 2 }]. *)
Lemma resolveTextEditorOptions_with_file_witness :
  resolveTextEditorOptions
    (sample_host (Some {[ "indent_style" := VStr "space";
                          "indent_size" := VNum (Finite 2) ]}))
    sample_doc all_resolve_hooks empty_world
  = Some ({[ "tabSize" := VNum (Finite 4); "indentSize" := VNum (Finite 2);
             "insertSpaces" := VBool true ]},
          World ∅ None [OnBeforeResolve "ws/src/main.ts"; Parse "/ws/src/main.ts"]).
Proof.
  etrans.
  - apply (resolveTextEditorOptions_with_file
             (sample_host (Some {[ "indent_style" := VStr "space";
                                   "indent_size" := VNum (Finite 2) ]}))
             sample_doc all_resolve_hooks empty_world "/ws/src/main.ts"
             {[ "indent_style" := VStr "space"; "indent_size" := VNum (Finite 2) ]});
      reflexivity.
  - vm_compute. reflexivity.
Defined.

(** When the parser rejects, so does [resolveTextEditorOptions]: there is no
    result and no fallback to the defaults. *)
Theorem resolveTextEditorOptions_parse_rejects (host : Host) (doc : TextDocument.t)
    (hooks : ResolveHooks) (w : world) (fileName : string) :
  truthy_string (File.fileName (resolveFile host doc)) = Some fileName ->
  parse host fileName = None ->
  resolveTextEditorOptions host doc hooks w = None.
Proof.
  intros Hfile Hparse.
  rewrite resolveTextEditorOptions_merges, (resolveCoreConfig_run _ _ _ _ _ Hfile).
  by rewrite Hparse.
Qed.

(** The sample document on a host whose parser rejects. *)
Lemma resolveTextEditorOptions_parse_rejects_witness :
  resolveTextEditorOptions (sample_host None) sample_doc all_resolve_hooks empty_world
  = None.
Proof.
  apply (resolveTextEditorOptions_parse_rejects (sample_host None) sample_doc
           all_resolve_hooks empty_world "/ws/src/main.ts"); reflexivity.
Defined.

(** Through [resolveTextEditorOptions], a parsed [indent_size = tab] with an
    integer [tab_width] and no [indent_style] gives both sizes the tab width
    and leaves [insertSpaces] out, because the sentinel is replaced before
    the conversion; [fromEditorConfig] on the parsed configuration itself
    sets [insertSpaces] to [false]. *)
Theorem resolved_indent_size_tab (host : Host) (doc : TextDocument.t)
    (hooks : ResolveHooks) (w : world) (fileName : string) (config : obj) (n : Z) :
  truthy_string (File.fileName (resolveFile host doc)) = Some fileName ->
  parse host fileName = Some config ->
  get config "indent_size" = VStr "tab" ->
  get config "tab_width" = VNum (Finite n) ->
  get config "indent_style" ≠ VStr "tab" ->
  get config "indent_style" ≠ VStr "space" ->
  (∃ r w', resolveTextEditorOptions host doc hooks w = Some (r, w')
           ∧ r !! "tabSize" = Some (VNum (Finite n))
           ∧ r !! "indentSize" = Some (VNum (Finite n))
           ∧ r !! "insertSpaces" = None)
  ∧ fromEditorConfig config (pickWorkspaceDefaults host (Some doc)) !! "insertSpaces"
    = Some (VBool false).
Proof.
  intros Hfile Hparse Hi Hw Htab Hspace. split.
  - eexists _, _. split.
    { by apply resolveTextEditorOptions_with_file. }
    rewrite Hi, Hw. change (VStr "tab" === VStr "tab") with true. cbv iota.
    set (settings := <["indent_size" := VNum (Finite n)]> config).
    assert (get settings "tab_width" = VNum (Finite n)) as Hw'.
    { unfold settings. by rewrite get_insert_ne by key_ne. }
    assert (get settings "indent_size" = VNum (Finite n)) as Hi'.
    { unfold settings. by rewrite get_insert_eq. }
    assert (get settings "indent_style" = get config "indent_style") as Hs'.
    { unfold settings. by rewrite get_insert_ne by key_ne. }
    split; [|split].
    + rewrite <- Hw'. apply fromEditorConfig_tabSize_config; by rewrite Hw'.
    + rewrite <- Hi'. apply fromEditorConfig_indentSize_config; by rewrite Hi'.
    + rewrite fromEditorConfig_insertSpaces, Hs', Hi'.
      by rewrite !strict_eq_VStr_ne.
  - rewrite fromEditorConfig_insertSpaces, Hi.
    by rewrite (strict_eq_VStr_ne _ "tab" Htab), (strict_eq_VStr_ne _ "space" Hspace).
Qed.

(** The sample document with [{ indent_size: tab, tab_width: 4 }]. *)
Lemma resolved_indent_size_tab_witness :
  (∃ r w',
     resolveTextEditorOptions
       (sample_host (Some {[ "indent_size" := VStr "tab"; "tab_width" := VNum (Finite 4) ]}))
       sample_doc all_resolve_hooks empty_world = Some (r, w')
     ∧ r !! "tabSize" = Some (VNum (Finite 4))
     ∧ r !! "indentSize" = Some (VNum (Finite 4))
     ∧ r !! "insertSpaces" = None)
  ∧ fromEditorConfig {[ "indent_size" := VStr "tab"; "tab_width" := VNum (Finite 4) ]}
      (pickWorkspaceDefaults
         (sample_host (Some {[ "indent_size" := VStr "tab";
                               "tab_width" := VNum (Finite 4) ]}))
         (Some sample_doc)) !! "insertSpaces"
    = Some (VBool false).
Proof.
  apply (resolved_indent_size_tab
           (sample_host (Some {[ "indent_size" := VStr "tab";
                                 "tab_width" := VNum (Finite 4) ]}))
           sample_doc all_resolve_hooks empty_world "/ws/src/main.ts"
           {[ "indent_size" := VStr "tab"; "tab_width" := VNum (Finite 4) ]} 4);
    try reflexivity; vm_compute; discriminate.
Defined.

(** With [detectIndentation] on, a document without a file does get the
    empty record, and nothing is called. *)
Theorem detectIndentation_no_file_empty (host : Host) (doc : TextDocument.t)
    (hooks : ResolveHooks) (w : world) :
  truthy (get (getConfiguration host "editor" (Some doc)) "detectIndentation") = true ->
  truthy_string (File.fileName (resolveFile host doc)) = None ->
  resolveTextEditorOptions host doc hooks w = Some (∅, w).
Proof.
  intros Hdetect Hfile. rewrite resolveTextEditorOptions_no_file by done.
  unfold pickWorkspaceDefaults. cbv zeta. rewrite Hdetect.
  reflexivity.
Qed.

(** The [Log] document on a host that detects indentation. *)
Lemma detectIndentation_no_file_empty_witness :
  resolveTextEditorOptions detecting_host log_doc all_resolve_hooks empty_world
  = Some (∅, empty_world).
Proof.
  apply (detectIndentation_no_file_empty detecting_host log_doc all_resolve_hooks
           empty_world); reflexivity.
Defined.

(** Whatever the document, a result of [resolveTextEditorOptions] is a
    conversion of some settings against the workspace defaults, and the only
    calls made are [onBeforeResolve] and the parser: [onEmptyConfig] is never
    called, and the editor and the option objects are left alone. *)
Theorem resolveTextEditorOptions_calls (host : Host) (doc : TextDocument.t)
    (hooks : ResolveHooks) (w w' : world) (r : obj) :
  resolveTextEditorOptions host doc hooks w = Some (r, w') ->
  (∃ settings, r = fromEditorConfig settings (pickWorkspaceDefaults host (Some doc)))
  ∧ heap w' = heap w
  ∧ activeTextEditor w' = activeTextEditor w
  ∧ ∃ t, trace w' = (trace w ++ t)%list ∧ ∀ rp, OnEmptyConfig rp ∉ t.
Proof.
  rewrite resolveTextEditorOptions_merges.
  destruct (resolveCoreConfig host doc (onBeforeResolve hooks) w)
    as [[settings w1]|] eqn:E; [|done].
  intros [= <- <-].
  apply resolveCoreConfig_trace in E as (Hheap & Hed & t & Htrace & Ht).
  split; [by exists settings|]. split; [done|]. split; [done|].
  exists t. split; [done|]. intros rp Hin.
  destruct (Ht _ Hin) as [[? ?]|[? ?]]; discriminate.
Qed.

(** The sample document with an empty parsed configuration and both
    callbacks given. *)
Lemma resolveTextEditorOptions_calls_witness :
  (∃ settings,
     {[ "tabSize" := VNum (Finite 4); "indentSize" := VStr "tabSize" ]}
     = fromEditorConfig settings
         (pickWorkspaceDefaults (sample_host (Some ∅)) (Some sample_doc)))
  ∧ ∃ t, [OnBeforeResolve "ws/src/main.ts"; Parse "/ws/src/main.ts"]
         = (trace empty_world ++ t)%list
         ∧ ∀ rp, OnEmptyConfig rp ∉ t.
Proof.
  destruct (resolveTextEditorOptions_calls (sample_host (Some ∅)) sample_doc
              all_resolve_hooks empty_world
              (World ∅ None [OnBeforeResolve "ws/src/main.ts"; Parse "/ws/src/main.ts"])
              {[ "tabSize" := VNum (Finite 4); "indentSize" := VStr "tabSize" ]})
    as (Hsettings & _ & _ & Htrace).
  - vm_compute. reflexivity.
  - split; [exact Hsettings | exact Htrace].
Defined.

(** ** Applying options *)

Section apply_lemmas.

Variables (host : Host) (newOptions : loc) (hooks : ApplyHooks).

(** The host's [indentSize] setting mirrors the tab size, for the document of
    [editor]. *)
#[local] Abbreviation mirrors editor :=
  (get (getConfiguration host "editor" (Some (TextEditor.document editor))) "indentSize"
   = VStr "tabSize").

(** The options [o] lack an [indentSize] and have a numeric [tabSize]. *)
#[local] Abbreviation reconcilable o :=
  (get o "indentSize" = VUndefined ∧ typeof (get o "tabSize") = "number").

Lemma reconcilable_test (o : obj) :
  (VStr (typeof (get o "indentSize")) === VStr "undefined")
  && (VStr (typeof (get o "tabSize")) === VStr "number")
  = bool_decide (reconcilable o).
Proof.
  rewrite !strict_eq_VStr, <- bool_decide_and. apply bool_decide_ext.
  destruct (get o "indentSize"); simpl; split; intros [? ?]; split; congruence.
Qed.

Lemma apply_run_none (w : world) :
  activeTextEditor w = None ->
  applyTextEditorOptions host newOptions hooks w
  = Some (tt, World (heap w) None
                (if onNoActiveTextEditor hooks
                 then (trace w ++ [OnNoActiveTextEditor])%list else trace w)).
Proof.
  intros Hed.
  unfold applyTextEditorOptions, bind, getActiveTextEditor, call_if, emit, ret.
  rewrite Hed. destruct (onNoActiveTextEditor hooks); simpl; [by rewrite Hed|].
  by destruct w; simplify_eq/=.
Qed.

Lemma apply_run_plain (w : world) (editor : TextEditor.t) :
  activeTextEditor w = Some editor ->
  ¬ mirrors editor ∨ (∃ o, heap w !! newOptions = Some o ∧ ¬ reconcilable o) ->
  applyTextEditorOptions host newOptions hooks w
  = Some (tt, World (heap w)
                (Some (TextEditor.Make (TextEditor.document editor) newOptions))
                (if onSuccess hooks
                 then (trace w ++ [OnSuccess newOptions])%list else trace w)).
Proof.
  intros Hed Hplain.
  unfold applyTextEditorOptions, bind, getActiveTextEditor, load, store,
    setActiveTextEditor, call_if, emit, ret.
  rewrite Hed, strict_eq_VStr. cbv zeta.
  case_bool_decide as Hm.
  - destruct Hplain as [? | (o & Hnew & Ho)]; [done|].
    rewrite Hnew, reconcilable_test, bool_decide_eq_false_2 by done.
    by destruct (onSuccess hooks).
  - by destruct (onSuccess hooks).
Qed.

Lemma apply_run_reconcile (w : world) (editor : TextEditor.t) (o current : obj) :
  activeTextEditor w = Some editor ->
  mirrors editor ->
  heap w !! newOptions = Some o ->
  reconcilable o ->
  heap w !! TextEditor.options editor = Some current ->
  applyTextEditorOptions host newOptions hooks w
  = Some (tt, World (<[newOptions := <["indentSize" := get current "indentSize"]> o]> (heap w))
                (Some (TextEditor.Make (TextEditor.document editor) newOptions))
                (if onSuccess hooks
                 then (trace w ++ [OnSuccess newOptions])%list else trace w)).
Proof.
  intros Hed Hm Hnew Ho Hcur.
  unfold applyTextEditorOptions, bind, getActiveTextEditor, load, store,
    setActiveTextEditor, call_if, emit, ret.
  rewrite Hed, strict_eq_VStr. cbv zeta.
  rewrite bool_decide_eq_true_2 by done.
  rewrite Hnew, reconcilable_test, bool_decide_eq_true_2 by done.
  rewrite Hcur. simpl. rewrite Hnew.
  by destruct (onSuccess hooks).
Qed.

(** Every successful run is one of these three. *)
Lemma apply_inv (w w' : world) :
  applyTextEditorOptions host newOptions hooks w = Some (tt, w') ->
  (activeTextEditor w = None
   ∧ w' = World (heap w) None
            (if onNoActiveTextEditor hooks
             then (trace w ++ [OnNoActiveTextEditor])%list else trace w))
  ∨ (∃ editor,
       activeTextEditor w = Some editor
       ∧ (¬ mirrors editor ∨ (∃ o, heap w !! newOptions = Some o ∧ ¬ reconcilable o))
       ∧ w' = World (heap w)
                (Some (TextEditor.Make (TextEditor.document editor) newOptions))
                (if onSuccess hooks
                 then (trace w ++ [OnSuccess newOptions])%list else trace w))
  ∨ (∃ editor o current,
       activeTextEditor w = Some editor
       ∧ mirrors editor
       ∧ heap w !! newOptions = Some o
       ∧ reconcilable o
       ∧ heap w !! TextEditor.options editor = Some current
       ∧ w' = World (<[newOptions := <["indentSize" := get current "indentSize"]> o]> (heap w))
                (Some (TextEditor.Make (TextEditor.document editor) newOptions))
                (if onSuccess hooks
                 then (trace w ++ [OnSuccess newOptions])%list else trace w)).
Proof.
  intros Hrun.
  destruct (activeTextEditor w) as [editor|] eqn:Hed.
  - right.
    destruct (decide (mirrors editor)) as [Hm|Hm].
    + destruct (heap w !! newOptions) as [o|] eqn:Hnew.
      * destruct (decide (reconcilable o)) as [Ho|Ho].
        -- destruct (heap w !! TextEditor.options editor) as [current|] eqn:Hcur.
           ++ right. exists editor, o, current.
              rewrite (apply_run_reconcile w editor o current) in Hrun by done.
              by simplify_eq.
           ++ exfalso. revert Hrun.
              unfold applyTextEditorOptions, bind, getActiveTextEditor, load, ret.
              rewrite Hed, strict_eq_VStr. cbv zeta.
              rewrite bool_decide_eq_true_2 by done.
              rewrite Hnew, reconcilable_test, bool_decide_eq_true_2 by done.
              by rewrite Hcur.
        -- left. exists editor.
           rewrite (apply_run_plain w editor) in Hrun by eauto.
           simplify_eq. eauto 10.
      * exfalso. revert Hrun.
        unfold applyTextEditorOptions, bind, getActiveTextEditor, load, ret.
        rewrite Hed, strict_eq_VStr. cbv zeta.
        rewrite bool_decide_eq_true_2 by done.
        by rewrite Hnew.
    + left. exists editor.
      rewrite (apply_run_plain w editor) in Hrun by eauto.
      simplify_eq. eauto.
  - left. rewrite apply_run_none in Hrun by done. by simplify_eq.
Qed.

End apply_lemmas.

(** A run of [applyTextEditorOptions] changes at most the [indentSize] of the
    new options object: every other object and every other property stay,
    no object appears or disappears, and an active editor keeps its document
    and gets the new options object as its options. *)
Theorem applyTextEditorOptions_frame (host : Host) (newOptions : loc)
    (hooks : ApplyHooks) (w w' : world) :
  applyTextEditorOptions host newOptions hooks w = Some (tt, w') ->
  (∀ l, l ≠ newOptions -> heap w' !! l = heap w !! l)
  ∧ (∀ l, is_Some (heap w' !! l) ↔ is_Some (heap w !! l))
  ∧ (∀ o o' k, heap w !! newOptions = Some o -> heap w' !! newOptions = Some o' ->
               k ≠ "indentSize" -> o' !! k = o !! k)
  ∧ activeTextEditor w'
    = (fun e => TextEditor.Make (TextEditor.document e) newOptions)
        <$> activeTextEditor w.
Proof.
  intros [(Hed & ->) | [(editor & Hed & _ & ->)
                       | (editor & o & current & Hed & _ & Hnew & _ & _ & ->)]]%apply_inv;
    simpl; rewrite Hed; simpl.
  - repeat split; try done. intros o o' k ? ?. by simplify_eq.
  - repeat split; try done. intros o o' k ? ?. by simplify_eq.
  - split; [|split; [|split]]; [| | |done].
    + intros l Hl. by rewrite lookup_insert_ne.
    + intros l. destruct (decide (l = newOptions)) as [->|Hl].
      * rewrite lookup_insert_eq, Hnew. split; by eauto.
      * by rewrite lookup_insert_ne.
    + intros o1 o' k Ho1 Ho' Hk. rewrite lookup_insert_eq in Ho'.
      simplify_eq. by rewrite lookup_insert_ne.
Qed.

(** On [editing_world]: the editor's old options object, at [1], is not
    touched. *)
Lemma applyTextEditorOptions_frame_witness :
  ∃ w', applyTextEditorOptions (sample_host None) 2%positive all_apply_hooks
          editing_world = Some (tt, w')
        ∧ heap w' !! 1%positive = heap editing_world !! 1%positive
        ∧ activeTextEditor w' = Some (TextEditor.Make sample_doc 2%positive).
Proof.
  eexists. split; [vm_compute; reflexivity|].
  destruct (applyTextEditorOptions_frame (sample_host None) 2%positive
              all_apply_hooks editing_world _ ltac:(vm_compute; reflexivity))
    as (Hother & _ & _ & Hed).
  split; [by apply Hother | exact Hed].
Defined.

(** Exactly one callback can be called, once: [onNoActiveTextEditor] when no
    editor is active, [onSuccess] on the new options object otherwise, each
    only when it was given. *)
Theorem applyTextEditorOptions_callbacks (host : Host) (newOptions : loc)
    (hooks : ApplyHooks) (w w' : world) :
  applyTextEditorOptions host newOptions hooks w = Some (tt, w') ->
  trace w'
  = (trace w
     ++ match activeTextEditor w with
        | None => if onNoActiveTextEditor hooks then [OnNoActiveTextEditor] else []
        | Some _ => if onSuccess hooks then [OnSuccess newOptions] else []
        end)%list.
Proof.
  intros [(Hed & ->) | [(editor & Hed & _ & ->)
                       | (editor & o & current & Hed & _ & _ & _ & _ & ->)]]%apply_inv;
    rewrite Hed; simpl.
  - destruct (onNoActiveTextEditor hooks); by rewrite ?app_nil_r.
  - destruct (onSuccess hooks); by rewrite ?app_nil_r.
  - destruct (onSuccess hooks); by rewrite ?app_nil_r.
Qed.

(** Without an editor, on the empty world. *)
Lemma applyTextEditorOptions_callbacks_witness :
  ∃ w', applyTextEditorOptions (sample_host None) 2%positive all_apply_hooks
          empty_world = Some (tt, w')
        ∧ trace w' = [OnNoActiveTextEditor].
Proof.
  eexists. split; [vm_compute; reflexivity|].
  exact (applyTextEditorOptions_callbacks (sample_host None) 2%positive
           all_apply_hooks empty_world _ ltac:(vm_compute; reflexivity)).
Defined.

(** An option object is modified only under the three conditions of the
    reconciliation, with an active editor: the host's [indentSize] setting is
    ["tabSize"], the new options have no [indentSize], and their [tabSize] is
    a number. In particular an [indentSize] that the caller gave is never
    overwritten. *)
Theorem applyTextEditorOptions_modifies_only_if (host : Host) (newOptions : loc)
    (hooks : ApplyHooks) (w w' : world) :
  applyTextEditorOptions host newOptions hooks w = Some (tt, w') ->
  heap w' ≠ heap w ->
  ∃ editor o,
    activeTextEditor w = Some editor
    ∧ get (getConfiguration host "editor" (Some (TextEditor.document editor)))
          "indentSize" = VStr "tabSize"
    ∧ heap w !! newOptions = Some o
    ∧ get o "indentSize" = VUndefined
    ∧ typeof (get o "tabSize") = "number".
Proof.
  intros [(Hed & ->) | [(editor & Hed & _ & ->)
                       | (editor & o & current & Hed & Hm & Hnew & [Hi Ht] & _ & ->)]]%apply_inv;
    simpl; intros Hheap; [done | done |].
  by exists editor, o.
Qed.

(** On [editing_world], where the new options [{ tabSize: 2 }] are given the
    indent size 8. *)
Lemma applyTextEditorOptions_modifies_only_if_witness :
  ∃ editor o,
    activeTextEditor editing_world = Some editor
    ∧ get (getConfiguration (sample_host None) "editor"
             (Some (TextEditor.document editor))) "indentSize" = VStr "tabSize"
    ∧ heap editing_world !! 2%positive = Some o
    ∧ get o "indentSize" = VUndefined
    ∧ typeof (get o "tabSize") = "number".
Proof.
  eapply (applyTextEditorOptions_modifies_only_if (sample_host None) 2%positive
            all_apply_hooks editing_world).
  - vm_compute. reflexivity.
  - simpl. intros H.
    apply (f_equal (fun h : gmap loc obj => h !! 2%positive ≫= (.!! "indentSize"))) in H.
    vm_compute in H. discriminate H.
Defined.

(** Applying the same options object a second time succeeds and changes
    neither the option objects nor the editor: whatever the first run
    reconciled stays as it is. *)
Theorem applyTextEditorOptions_idempotent (host : Host) (newOptions : loc)
    (hooks : ApplyHooks) (w w1 : world) :
  applyTextEditorOptions host newOptions hooks w = Some (tt, w1) ->
  ∃ w2, applyTextEditorOptions host newOptions hooks w1 = Some (tt, w2)
        ∧ heap w2 = heap w1
        ∧ activeTextEditor w2 = activeTextEditor w1.
Proof.
  intros [(Hed & Hw1) | [(editor & Hed & Hplain & Hw1)
                       | (editor & o & current & Hed & Hm & Hnew & [Hi Ht] & Hcur & Hw1)]]%apply_inv.
  - assert (activeTextEditor w1 = None) as Hed1 by (by rewrite Hw1).
    eexists. split; [by apply apply_run_none|]. by rewrite Hed1.
  - set (editor1 := TextEditor.Make (TextEditor.document editor) newOptions).
    assert (activeTextEditor w1 = Some editor1) as Hed1 by (by rewrite Hw1).
    assert (heap w1 = heap w) as Hheap by (by rewrite Hw1).
    eexists. split.
    { apply (apply_run_plain host newOptions hooks w1 editor1); [done|].
      by rewrite Hheap. }
    by rewrite Hed1.
  - set (editor1 := TextEditor.Make (TextEditor.document editor) newOptions).
    set (o1 := <["indentSize" := get current "indentSize"]> o).
    assert (activeTextEditor w1 = Some editor1) as Hed1 by (by rewrite Hw1).
    assert (heap w1 = <[newOptions := o1]> (heap w)) as Hheap by (by rewrite Hw1).
    assert (heap w1 !! newOptions = Some o1) as Hnew1.
    { rewrite Hheap. apply lookup_insert_eq. }
    destruct (decide (get current "indentSize" = VUndefined)) as [Hc|Hc].
    + eexists. split.
      * apply (apply_run_reconcile host newOptions hooks w1 editor1 o1 o1);
          try done.
        unfold o1. split; [by rewrite get_insert_eq|].
        by rewrite get_insert_ne by key_ne.
      * simpl. split; [|by rewrite Hed1].
        unfold o1 at 1. rewrite get_insert_eq. fold o1.
        assert (<["indentSize" := get current "indentSize"]> o1 = o1) as ->.
        { unfold o1. apply insert_insert_eq. }
        rewrite Hheap. apply insert_insert_eq.
    + eexists. split.
      { apply (apply_run_plain host newOptions hooks w1 editor1); [done|].
        right. exists o1. split; [done|].
        intros [Hi1 _]. unfold o1 in Hi1. by rewrite get_insert_eq in Hi1. }
      by rewrite Hed1.
Qed.

(** On [editing_world], applied once and then again. *)
Lemma applyTextEditorOptions_idempotent_witness :
  ∃ w1 w2,
    applyTextEditorOptions (sample_host None) 2%positive all_apply_hooks editing_world
      = Some (tt, w1)
    ∧ applyTextEditorOptions (sample_host None) 2%positive all_apply_hooks w1
      = Some (tt, w2)
    ∧ heap w2 = heap w1
    ∧ activeTextEditor w2 = activeTextEditor w1.
Proof.
  eexists.
  destruct (applyTextEditorOptions_idempotent (sample_host None) 2%positive
              all_apply_hooks editing_world _ ltac:(vm_compute; reflexivity))
    as (w2 & Hrun & Hheap & Hed).
  exists w2. split; [vm_compute; reflexivity|]. by split.
Defined.
